(** * lib-in-view: visibility of a tracked element inside its scrolling parent

  A shallow embedding of [src/index.ts] (classes [InView] and [Subject])
  and of the [Context] class, followed by the properties of the
  visibility computation, the offset resolution, the scroll snapshot and
  the option validation, and then by those of the subscriptions, of
  sequences of events, of the construction and of the subject.

  Modelling conventions.
  - A JavaScript [number] is either [NaN] or an exact rational: rounding,
    infinities and the sign of zero are outside the model.  Values handed
    out by the host (bounding rectangles, scroll offsets) are always
    finite, so they are plain rationals; [clientHeight]/[clientWidth] are
    non-negative integers.
  - Strings are sequences of one-byte characters.  ['%'], the decimal
    digits, the signs and the ASCII white space are single bytes in UTF-8
    and never occur inside a multi-byte sequence.
  - DOM nodes are handles; their geometry is read from a [Dom.t] that is
    passed to every operation that queries the host.
  - The user callback is an effect: the handler returns the list of the
    visibility records it passed to the callback.
  - A thrown exception is the [Throw] branch of [Completion].
  - An option is absent or present; a property explicitly set to
    [undefined] is not distinguished from an absent one. *)

From Stdlib Require Import ZArith QArith Qround Qabs Bool List String Ascii Lia Lqa.
Import ListNotations.

Local Open Scope Q_scope.

(** ** JavaScript values *)

Module JS.

Inductive number : Type :=
| NaN
| Num (q : Q).

Definition ofZ (z : Z) : number := Num (inject_Z z).

Definition lift2 (f : Q -> Q -> Q) (a b : number) : number :=
  match a, b with
  | Num x, Num y => Num (f x y)
  | _, _ => NaN
  end.

Definition add : number -> number -> number := lift2 Qplus.
Definition mul : number -> number -> number := lift2 Qmult.

(** [a / b].  A zero divisor would give an infinity, which the model does
    not have; the only divisor in the sources is the literal [100]. *)
Definition div (a b : number) : number :=
  match a, b with
  | Num x, Num y => if Qeq_bool y 0 then NaN else Num (x / y)
  | _, _ => NaN
  end.

Definition cmp (f : Q -> Q -> bool) (a b : number) : bool :=
  match a, b with
  | Num x, Num y => f x y
  | _, _ => false
  end.

Definition Qlt_bool (x y : Q) : bool := negb (Qle_bool y x).

(** [a <= b], [a < b], [a >= b], [a > b]: false as soon as one side is NaN. *)
Definition le : number -> number -> bool := cmp Qle_bool.
Definition lt : number -> number -> bool := cmp Qlt_bool.
Definition ge (a b : number) : bool := le b a.
Definition gt (a b : number) : bool := lt b a.

(** The order and the equality of finite numbers, as propositions. *)
Definition Le (a b : number) : Prop :=
  match a, b with
  | Num x, Num y => x <= y
  | _, _ => False
  end.

Definition Lt (a b : number) : Prop :=
  match a, b with
  | Num x, Num y => x < y
  | _, _ => False
  end.

Definition Eq (a b : number) : Prop :=
  match a, b with
  | Num x, Num y => x == y
  | _, _ => False
  end.

(** [Math.floor] and [Math.abs]. *)
Definition floor (a : number) : number :=
  match a with
  | NaN => NaN
  | Num x => ofZ (Qfloor x)
  end.

Definition abs (a : number) : number :=
  match a with
  | NaN => NaN
  | Num x => Num (Qabs x)
  end.

(** ToBoolean on a number and on a string. *)
Definition truthy_number (a : number) : bool :=
  match a with
  | NaN => false
  | Num x => negb (Qeq_bool x 0)
  end.

Definition truthy_string (s : string) : bool :=
  match s with
  | EmptyString => false
  | String _ _ => true
  end.

(** ToNumber on a possibly [undefined] number. *)
Definition toNumber (o : option number) : number :=
  match o with
  | Some n => n
  | None => NaN
  end.

(** *** [parseInt(s, 10)] *)

(** The white space [parseInt] skips, among the one-byte characters: tab,
    line feed, vertical tab, form feed, carriage return and space. *)
Definition isWhiteSpace (c : ascii) : bool :=
  let n := nat_of_ascii c in
  (Nat.eqb n 32 || (Nat.leb 9 n && Nat.leb n 13))%bool.

Fixpoint trimStart (s : string) : string :=
  match s with
  | String c s' => if isWhiteSpace c then trimStart s' else s
  | EmptyString => s
  end.

Definition digitValue (c : ascii) : option Z :=
  let n := Z.of_nat (nat_of_ascii c) in
  if ((48 <=? n) && (n <=? 57))%Z%bool then Some (n - 48)%Z else None.

(** The value of the longest prefix of decimal digits; [acc] is [None]
    while no digit has been read. *)
Fixpoint digits (acc : option Z) (s : string) : option Z :=
  match s with
  | String c s' =>
      match digitValue c with
      | Some d =>
          digits (Some (10 * match acc with Some a => a | None => 0 end + d)%Z) s'
      | None => acc
      end
  | EmptyString => acc
  end.

Definition parseInt (s : string) : number :=
  let t := trimStart s in
  let '(sign, body) :=
    match t with
    | String "-"%char r => ((-1)%Z, r)
    | String "+"%char r => (1%Z, r)
    | _ => (1%Z, t)
    end in
  match digits None body with
  | Some n => ofZ (sign * n)
  | None => NaN
  end.

(** *** [s.lastIndexOf(c)] for a one-character search string *)

Fixpoint lastIndexOf_from (i : Z) (s : string) (c : ascii) : Z :=
  match s with
  | EmptyString => (-1)%Z
  | String a s' =>
      let r := lastIndexOf_from (i + 1) s' c in
      if (r =? -1)%Z then (if Ascii.eqb a c then i else (-1)%Z) else r
  end.

Definition lastIndexOf (s : string) (c : ascii) : Z := lastIndexOf_from 0 s c.

Definition length (s : string) : Z := Z.of_nat (String.length s).

(** *** Exceptions *)

Inductive Error : Type :=
| TypeError (message : string).

Inductive Completion (A : Type) : Type :=
| Normal (a : A)
| Throw (e : Error).
Arguments Normal {A} a.
Arguments Throw {A} e.

End JS.

(** ** The host: elements, their geometry and the listener table *)

Module DOMRect.
Record t : Type := mk {
  top : Q; left : Q; right : Q; bottom : Q; height : Q; width : Q
}.
End DOMRect.

Module HTMLElement.
(** What the sources read from an element: its bounding rectangle, its
    client box, its scroll offsets and the margins of its computed style. *)
Record t : Type := mk {
  getBoundingClientRect : DOMRect.t;
  clientHeight : N;
  clientWidth : N;
  scrollTop : Q;
  scrollLeft : Q;
  marginTop : string;
  marginBottom : string;
  marginLeft : string;
  marginRight : string
}.
End HTMLElement.

(** A handle on a node of the host: the document or one of its elements. *)
Inductive Node : Type :=
| Document
| Element (id : nat).

Module Dom.
Record t : Type := mk {
  documentElement : HTMLElement.t;
  element : nat -> HTMLElement.t
}.
End Dom.

Definition Event : Type := string.

Module EventTarget.

Inductive target : Type :=
| OfNode (n : Node)
| Window.

Record registration : Type := reg {
  on : target;
  type : string;
  listener : nat
}.

(** The listener table of the host; [fresh] names the next bound function. *)
Record t : Type := mk {
  fresh : nat;
  registered : list registration
}.

Definition empty : t := mk 0 [].

Definition node_eqb (a b : Node) : bool :=
  match a, b with
  | Document, Document => true
  | Element i, Element j => Nat.eqb i j
  | _, _ => false
  end.

Definition target_eqb (a b : target) : bool :=
  match a, b with
  | OfNode n, OfNode m => node_eqb n m
  | Window, Window => true
  | _, _ => false
  end.

Definition same (a b : registration) : bool :=
  (target_eqb (on a) (on b) && String.eqb (type a) (type b)
   && Nat.eqb (listener a) (listener b))%bool.

(** Registering twice the same listener for the same event does nothing. *)
Definition addEventListener (tg : target) (ty : string) (l : nat) (tbl : t) : t :=
  let r := reg tg ty l in
  if existsb (same r) (registered tbl) then tbl
  else mk (fresh tbl) (registered tbl ++ [r]).

Definition removeEventListener (tg : target) (ty : string) (l : option nat) (tbl : t) : t :=
  match l with
  | Some l => mk (fresh tbl) (filter (fun r => negb (same (reg tg ty l) r)) (registered tbl))
  | None => tbl
  end.

End EventTarget.

(** ** Context: wrapper for the scrolling (parent) element *)

Module Scroll.
Record t : Type := mk {
  top : Q;
  left : Q;
  topDiff : Q;
  leftDiff : Q;
  dirY : Z;
  dirX : Z
}.
End Scroll.

Module Context.

Definition DIR_NONE : Z := 0.
Definition DIR_UP : Z := 1.
Definition DIR_DOWN : Z := 2.
Definition DIR_LEFT : Z := 3.
Definition DIR_RIGHT : Z := 4.

Record t : Type := mk {
  element : Node;
  event : option Event;
  isDoc : bool;
  scroll : Scroll.t;
  windowEvents : list string;
  boundListener : option nat
}.

Definition isDoc_ (element : Node) : bool :=
  match element with
  | Document => true
  | Element _ => false
  end.

Definition getWindow (element : Node) : EventTarget.target := EventTarget.Window.

Definition getElement (dom : Dom.t) (element : Node) : HTMLElement.t :=
  match element with
  | Document => Dom.documentElement dom
  | Element id => Dom.element dom id
  end.

Definition getRect (dom : Dom.t) (element : Node) : DOMRect.t :=
  HTMLElement.getBoundingClientRect (getElement dom element).

Definition populateScroll (dom : Dom.t) (that : t) : t :=
  let element := getElement dom (element that) in
  let scroll := scroll that in
  let scrollTop := HTMLElement.scrollTop element in
  let scrollLeft := HTMLElement.scrollLeft element in
  let topDiff := scrollTop - Scroll.top scroll in
  let leftDiff := scrollLeft - Scroll.left scroll in
  let dirY :=
    if Qeq_bool scrollTop (Scroll.top scroll) then DIR_NONE
    else if JS.Qlt_bool (Scroll.top scroll) scrollTop then DIR_DOWN else DIR_UP in
  let dirX :=
    if Qeq_bool scrollLeft (Scroll.left scroll) then DIR_NONE
    else if JS.Qlt_bool (Scroll.left scroll) scrollLeft then DIR_RIGHT else DIR_LEFT in
  mk (Context.element that) (event that) (isDoc that)
     (Scroll.mk scrollTop scrollLeft topDiff leftDiff dirY dirX)
     (windowEvents that) (boundListener that).

Definition constructor (dom : Dom.t) (element : Node) : t :=
  populateScroll dom
    (mk element None (isDoc_ element)
        (Scroll.mk 0 0 0 0 DIR_NONE DIR_NONE) [] None).

Definition top (dom : Dom.t) (that : t) : Q :=
  if isDoc that then 0 else DOMRect.top (getRect dom (element that)).

Definition left (dom : Dom.t) (that : t) : Q :=
  if isDoc that then 0 else DOMRect.left (getRect dom (element that)).

Definition scrollTop (that : t) : Q := Scroll.top (scroll that).
Definition scrollLeft (that : t) : Q := Scroll.left (scroll that).
Definition scrollTopDiff (that : t) : Q := Scroll.topDiff (scroll that).
Definition scrollLeftDiff (that : t) : Q := Scroll.leftDiff (scroll that).

Definition innerHeight (dom : Dom.t) (that : t) : N :=
  HTMLElement.clientHeight (getElement dom (element that)).

Definition innerWidth (dom : Dom.t) (that : t) : N :=
  HTMLElement.clientWidth (getElement dom (element that)).

Definition scrollDirY (that : t) : Z := Scroll.dirY (scroll that).
Definition scrollDirX (that : t) : Z := Scroll.dirX (scroll that).

(** [listen]: the handler is captured by the freshly bound listener, which
    the table names by a number; [listener] receives the handler again
    when the host fires one of the events. *)
Definition listen (windowEvents : option (list string)) (that : t)
    (tbl : EventTarget.t) : t * EventTarget.t :=
  let bound := EventTarget.fresh tbl in
  let tbl := EventTarget.mk (S bound) (EventTarget.registered tbl) in
  let that := mk (element that) (event that) (isDoc that) (scroll that)
                 (Context.windowEvents that) (Some bound) in
  let tbl := EventTarget.addEventListener
               (EventTarget.OfNode (element that)) "scroll" bound tbl in
  match windowEvents with
  | Some evs =>
      (mk (element that) (event that) (isDoc that) (scroll that) evs (Some bound),
       fold_left
         (fun tbl eventName =>
            EventTarget.addEventListener (getWindow (element that)) eventName bound tbl)
         evs tbl)
  | None => (that, tbl)
  end.

Definition unlisten (that : t) (tbl : EventTarget.t) : EventTarget.t :=
  let tbl := EventTarget.removeEventListener
               (EventTarget.OfNode (element that)) "scroll" (boundListener that) tbl in
  fold_left
    (fun tbl eventName =>
       EventTarget.removeEventListener (getWindow (element that)) eventName
         (boundListener that) tbl)
    (windowEvents that) tbl.

(** [listener]: store the event, refresh the snapshot, run the handler.
    The handler reads the context it is attached to; [T] is what it does. *)
Definition listener {T : Type} (handler : Event -> t -> T) (e : Event)
    (dom : Dom.t) (that : t) : t * T :=
  let that := mk (element that) (Some e) (isDoc that) (scroll that)
                 (windowEvents that) (boundListener that) in
  let that := populateScroll dom that in
  (that, handler e that).

End Context.

(** ** Subject: wrapper for the tracked (child) element *)

Module Subject.

Record t : Type := mk {
  element : nat
}.

Definition getRect (dom : Dom.t) (element : nat) : DOMRect.t :=
  HTMLElement.getBoundingClientRect (Dom.element dom element).

Definition top (dom : Dom.t) (that : t) : Q := DOMRect.top (getRect dom (element that)).
Definition left (dom : Dom.t) (that : t) : Q := DOMRect.left (getRect dom (element that)).
Definition right (dom : Dom.t) (that : t) : Q := DOMRect.right (getRect dom (element that)).
Definition bottom (dom : Dom.t) (that : t) : Q := DOMRect.bottom (getRect dom (element that)).

(** [m || '0'] *)
Definition orZero (m : string) : string :=
  if JS.truthy_string m then m else "0"%string.

Definition height (dom : Dom.t) (that : t) (withMargins : bool) : JS.number :=
  let element := element that in
  let height := JS.Num (DOMRect.height (getRect dom element)) in
  if withMargins then
    let computed := Dom.element dom element in
    let height := JS.add height (JS.parseInt (orZero (HTMLElement.marginTop computed))) in
    JS.add height (JS.parseInt (orZero (HTMLElement.marginBottom computed)))
  else height.

Definition width (dom : Dom.t) (that : t) (withMargins : bool) : JS.number :=
  let element := element that in
  let width := JS.Num (DOMRect.width (getRect dom element)) in
  if withMargins then
    let computed := Dom.element dom element in
    let width := JS.add width (JS.parseInt (orZero (HTMLElement.marginLeft computed))) in
    JS.add width (JS.parseInt (orZero (HTMLElement.marginRight computed)))
  else width.

End Subject.

(** ** InView: tracking the visibility of the subject in its context *)

Module Position.
Inductive t : Type :=
| top
| left
| right
| bottom.
End Position.

Inductive TPercentageMode : Type :=
| parent
| self.

(** [number | string | ((subject, context) => number)]; a function offset
  may query the host through the two wrappers it receives. *)
Inductive TOffset : Type :=
| OfNumber (n : JS.number)
| OfString (s : string)
| OfFunction (f : Dom.t -> Subject.t -> Context.t -> JS.number).

Module IOffset.
Record t : Type := mk {
  top : option TOffset;
  left : option TOffset;
  right : option TOffset;
  bottom : option TOffset
}.
Definition empty : t := mk None None None None.

(** [offset[position]] *)
Definition get (offset : t) (position : Position.t) : option TOffset :=
  match position with
  | Position.top => top offset
  | Position.left => left offset
  | Position.right => right offset
  | Position.bottom => bottom offset
  end.

(** The values [for (const k in offset)] visits.  The order of the keys of
    the object is not part of the model; the loop throws the same error
    whichever entry fails first. *)
Definition values (offset : t) : list TOffset :=
  flat_map (fun o => match o with Some v => [v] | None => [] end)
    [top offset; left offset; right offset; bottom offset].
End IOffset.

Module IScrollAmount.
Record t : Type := mk {
  top : option JS.number;
  left : option JS.number
}.
End IScrollAmount.

(** The options bag as the caller passes it. *)
Module IOptions.
Record t : Type := mk {
  context : option nat;
  windowEvents : option (list string);
  offset : option IOffset.t;
  offsetPercentageMode : option TPercentageMode;
  scrollAmount : option IScrollAmount.t
}.
Definition empty : t := mk None None None None None.
End IOptions.

(** The options once the constructor has spread the bag over the defaults:
  [windowEvents], [offset] and [offsetPercentageMode] are then present. *)
Module Options.
Record t : Type := mk {
  context : option nat;
  windowEvents : list string;
  offset : IOffset.t;
  offsetPercentageMode : TPercentageMode;
  scrollAmount : option IScrollAmount.t
}.
End Options.

Module IVisibility.
Record t : Type := mk {
  visible : bool;
  topLeft : bool;
  topRight : bool;
  bottomLeft : bool;
  bottomRight : bool
}.
End IVisibility.

Module Box.
(** The four edges of a rectangle, as the handler compares them. *)
Record t : Type := mk {
  top : JS.number;
  left : JS.number;
  bottom : JS.number;
  right : JS.number
}.
End Box.

Module InView.

Record t : Type := mk {
  context : Context.t;
  subject : Subject.t;
  options : Options.t
}.

(** [{windowEvents: [...], offset: {}, offsetPercentageMode: 'parent', ...options}] *)
Definition withDefaults (options : IOptions.t) : Options.t :=
  Options.mk
    (IOptions.context options)
    (match IOptions.windowEvents options with
     | Some w => w
     | None => ["DOMContentLoaded"; "resize"]%string
     end)
    (match IOptions.offset options with
     | Some o => o
     | None => IOffset.empty
     end)
    (match IOptions.offsetPercentageMode options with
     | Some m => m
     | None => parent
     end)
    (IOptions.scrollAmount options).

Definition quote : string := String (ascii_of_nat 34) EmptyString.

Definition message : string :=
  ("String offset value must be percentage, e.g. " ++ quote ++ "50%" ++ quote)%string.

(** The loop of [validateOptions] over the values of [offset]: a string
    [v] with [v.lastIndexOf('%') !== v.length - 1] throws. *)
Fixpoint validateValues (vs : list TOffset) : JS.Completion unit :=
  match vs with
  | [] => JS.Normal tt
  | v :: vs' =>
      match v with
      | OfString v =>
          if negb (JS.lastIndexOf v "%" =? JS.length v - 1)%Z
          then JS.Throw (JS.TypeError message)
          else validateValues vs'
      | _ => validateValues vs'
      end
  end.

Definition validateOptions (options : Options.t) : JS.Completion unit :=
  let offset := Options.offset options in
  validateValues (IOffset.values offset).

(** [subject[position]()] *)
Definition subjectEdge (dom : Dom.t) (subject : Subject.t) (position : Position.t) : Q :=
  match position with
  | Position.top => Subject.top dom subject
  | Position.left => Subject.left dom subject
  | Position.right => Subject.right dom subject
  | Position.bottom => Subject.bottom dom subject
  end.

Definition sign (position : Position.t) : JS.number :=
  match position with
  | Position.top | Position.left => JS.ofZ 1
  | _ => JS.ofZ (-1)
  end.

(** ToBoolean of a configured offset; functions are objects, hence truthy. *)
Definition truthy (v : TOffset) : bool :=
  match v with
  | OfNumber n => JS.truthy_number n
  | OfString s => JS.truthy_string s
  | OfFunction _ => true
  end.

(** [dimension] in the percentage branch of [getSubjectPosition]:
    [context.innerHeight()] or [context.innerWidth()] in mode ['parent'],
    [subject.height()] or [subject.width()] otherwise. *)
Definition dimension (dom : Dom.t) (that : t) (position : Position.t) : JS.number :=
  match Options.offsetPercentageMode (options that) with
  | parent =>
      match position with
      | Position.top | Position.bottom =>
          JS.ofZ (Z.of_N (Context.innerHeight dom (context that)))
      | _ => JS.ofZ (Z.of_N (Context.innerWidth dom (context that)))
      end
  | self =>
      match position with
      | Position.top | Position.bottom => Subject.height dom (subject that) false
      | _ => Subject.width dom (subject that) false
      end
  end.

(** [getSubjectPosition]: a falsy offset ([undefined], [0], [NaN], the
    empty string) returns the measured edge at once; the other branches add
    the signed offset and return [Math.floor] of the sum. *)
Definition getSubjectPosition (dom : Dom.t) (that : t) (position : Position.t) : JS.number :=
  let offset := Options.offset (options that) in
  let value := JS.Num (subjectEdge dom (subject that) position) in
  let positionOffset := IOffset.get offset position in
  let sign := sign position in
  let result := value in
  match positionOffset with
  | None => result
  | Some positionOffset =>
      if negb (truthy positionOffset) then result
      else
        let result :=
          match positionOffset with
          | OfNumber n => JS.add result (JS.mul n sign)
          | OfFunction f =>
              JS.add result (JS.mul (f dom (subject that) (context that)) sign)
          | OfString s =>
              JS.add result
                (JS.mul (JS.div (dimension dom that position) (JS.ofZ 100))
                        (JS.mul (JS.parseInt s) sign))
          end in
        JS.floor result
  end.

(** [options.scrollAmount || {top: 0, left: 0}] *)
Definition scrollAmount (options : Options.t) : IScrollAmount.t :=
  match Options.scrollAmount options with
  | Some a => a
  | None => IScrollAmount.mk (Some (JS.ofZ 0)) (Some (JS.ofZ 0))
  end.

(** The condition of the first [if] of [eventsHandler]: the event scrolled
    less than the configured minimum on one axis. *)
Definition belowScrollAmount (this : t) : bool :=
  let scrollAmount := scrollAmount (options this) in
  let scrollTopDiff := JS.abs (JS.Num (Context.scrollTopDiff (context this))) in
  let scrollLeftDiff := JS.abs (JS.Num (Context.scrollLeftDiff (context this))) in
  ((JS.gt scrollTopDiff (JS.ofZ 0)
    && JS.le scrollTopDiff (JS.toNumber (IScrollAmount.top scrollAmount)))
   || (JS.gt scrollLeftDiff (JS.ofZ 0)
       && JS.le scrollLeftDiff (JS.toNumber (IScrollAmount.left scrollAmount))))%bool.

(** [parentTop], [parentLeft], [parentBottom], [parentRight] of
    [eventsHandler]. *)
Definition parentBox (dom : Dom.t) (this : t) : Box.t :=
  let parentHeight := inject_Z (Z.of_N (Context.innerHeight dom (context this))) in
  let parentWidth := inject_Z (Z.of_N (Context.innerWidth dom (context this))) in
  let parentTop := Context.top dom (context this) in
  let parentLeft := Context.left dom (context this) in
  let parentBottom := parentTop + parentHeight in
  let parentRight := parentLeft + parentWidth in
  Box.mk (JS.Num parentTop) (JS.Num parentLeft) (JS.Num parentBottom) (JS.Num parentRight).

(** [childTop], [childLeft], [childBottom], [childRight] of
    [eventsHandler]. *)
Definition childBox (dom : Dom.t) (this : t) : Box.t :=
  Box.mk (getSubjectPosition dom this Position.top)
         (getSubjectPosition dom this Position.left)
         (getSubjectPosition dom this Position.bottom)
         (getSubjectPosition dom this Position.right).

(** The six comparisons of [eventsHandler], [p] being the box of the
    parent and [c] the box of the child. *)
Definition topVisible (p c : Box.t) : bool :=
  (JS.ge (Box.top c) (Box.top p) && JS.lt (Box.top c) (Box.bottom p))%bool.
Definition bottomVisible (p c : Box.t) : bool :=
  (JS.lt (Box.bottom c) (Box.bottom p) && JS.ge (Box.bottom c) (Box.top p))%bool.
Definition leftVisible (p c : Box.t) : bool :=
  (JS.ge (Box.left c) (Box.left p) && JS.lt (Box.left c) (Box.right p))%bool.
Definition rightVisible (p c : Box.t) : bool :=
  (JS.le (Box.right c) (Box.right p) && JS.ge (Box.right c) (Box.left p))%bool.
Definition overflowY (p c : Box.t) : bool :=
  (JS.le (Box.top c) (Box.top p) && JS.ge (Box.bottom c) (Box.bottom p))%bool.
Definition overflowX (p c : Box.t) : bool :=
  (JS.le (Box.left c) (Box.left p) && JS.ge (Box.right c) (Box.right p))%bool.

(** The record [visibility] handed to the callback. *)
Definition visibility (p c : Box.t) : IVisibility.t :=
  IVisibility.mk
    ((topVisible p c || bottomVisible p c || overflowY p c)
     && (leftVisible p c || rightVisible p c || overflowX p c))%bool
    (topVisible p c && leftVisible p c)%bool
    (topVisible p c && rightVisible p c)%bool
    (bottomVisible p c && leftVisible p c)%bool
    (bottomVisible p c && rightVisible p c)%bool.

(** [eventsHandler]: the calls it makes to the callback, in order. *)
Definition eventsHandler (dom : Dom.t) (this : t) : list IVisibility.t :=
  if belowScrollAmount this then []
  else [visibility (parentBox dom this) (childBox dom this)].

Definition recalculate (dom : Dom.t) (this : t) : list IVisibility.t :=
  eventsHandler dom this.

Definition stop (this : t) (tbl : EventTarget.t) : EventTarget.t :=
  Context.unlisten (context this) tbl.

(** The host fires an event the instance listens to: the bound listener of
    the context runs with [eventsHandler] as its handler, which sees the
    context as the listener has just updated it. *)
Definition onEvent (e : Event) (dom : Dom.t) (this : t) : t * list IVisibility.t :=
  let '(ctx, calls) :=
    Context.listener
      (fun _ ctx => eventsHandler dom (mk ctx (subject this) (options this)))
      e dom (context this) in
  (mk ctx (subject this) (options this), calls).

(** [new InView(element, callback, options)] on a host whose listener
    table is [tbl]; the table afterwards and the instance, or the error. *)
Definition constructor (dom : Dom.t) (tbl : EventTarget.t) (element : nat)
    (options : IOptions.t) : EventTarget.t * JS.Completion t :=
  let options := withDefaults options in
  match validateOptions options with
  | JS.Throw e => (tbl, JS.Throw e)
  | JS.Normal _ =>
      let subject := Subject.mk element in
      let context :=
        Context.constructor dom
          (match Options.context options with
           | Some c => Element c
           | None => Document
           end) in
      let '(context, tbl) :=
        Context.listen (Some (Options.windowEvents options)) context tbl in
      (tbl, JS.Normal (mk context subject options))
  end.

End InView.

(** ** The vocabulary of the properties *)

Module Spec.

(** [x] lies in the half-open interval from [lo] to [hi]. *)
Definition within (lo x hi : JS.number) : Prop := JS.Le lo x /\ JS.Lt x hi.

(** [x] lies in the closed interval from [lo] to [hi]. *)
Definition withinClosed (lo x hi : JS.number) : Prop := JS.Le lo x /\ JS.Le x hi.

(** The child segment covers the parent segment. *)
Definition covers (clo chi plo phi : JS.number) : Prop := JS.Le clo plo /\ JS.Le phi chi.

(** A nonzero delta that does not exceed the configured amount. *)
Definition noise (diff : Q) (amount : option JS.number) : Prop :=
  0 < Qabs diff /\ JS.Le (JS.Num (Qabs diff)) (JS.toNumber amount).

(** The deltas stored in the context of [this] are noise on one axis at least. *)
Definition insignificant (this : InView.t) : Prop :=
  let amount := InView.scrollAmount (InView.options this) in
  noise (Context.scrollTopDiff (InView.context this)) (IScrollAmount.top amount)
  \/ noise (Context.scrollLeftDiff (InView.context this)) (IScrollAmount.left amount).

(** The directions of a snapshot agree with the signs of its deltas. *)
Definition consistent (s : Scroll.t) : Prop :=
  (Scroll.dirY s = Context.DIR_NONE <-> Scroll.topDiff s == 0)
  /\ (Scroll.dirY s = Context.DIR_DOWN <-> 0 < Scroll.topDiff s)
  /\ (Scroll.dirY s = Context.DIR_UP <-> Scroll.topDiff s < 0)
  /\ (Scroll.dirX s = Context.DIR_NONE <-> Scroll.leftDiff s == 0)
  /\ (Scroll.dirX s = Context.DIR_RIGHT <-> 0 < Scroll.leftDiff s)
  /\ (Scroll.dirX s = Context.DIR_LEFT <-> Scroll.leftDiff s < 0).

(** [+1] for the top and left edges, [-1] for the bottom and right ones. *)
Definition sign (position : Position.t) : Q :=
  match position with
  | Position.top | Position.left => 1
  | _ => - (1)
  end.

(** The dimension a percentage offset refers to: the client height or width
    of the context in mode [parent], the height or width of the bounding
    rectangle of the subject in mode [self]; heights for the top and bottom
    edges, widths for the left and right ones. *)
Definition base (dom : Dom.t) (this : InView.t) (position : Position.t) : Q :=
  match Options.offsetPercentageMode (InView.options this), position with
  | parent, (Position.top | Position.bottom) =>
      inject_Z (Z.of_N (Context.innerHeight dom (InView.context this)))
  | parent, _ => inject_Z (Z.of_N (Context.innerWidth dom (InView.context this)))
  | self, (Position.top | Position.bottom) =>
      DOMRect.height (Subject.getRect dom (Subject.element (InView.subject this)))
  | self, _ =>
      DOMRect.width (Subject.getRect dom (Subject.element (InView.subject this)))
  end.

(** The last character of a string, and what it is to end in [c]. *)
Fixpoint lastChar (s : string) : option ascii :=
  match s with
  | EmptyString => None
  | String a EmptyString => Some a
  | String _ s' => lastChar s'
  end.

Definition endsWith (s : string) (c : ascii) : Prop := lastChar s = Some c.

(** A string offset that is not a percentage although it is not empty. *)
Definition malformed (v : TOffset) : Prop :=
  match v with
  | OfString s => s <> EmptyString /\ ~ endsWith s "%"
  | _ => False
  end.

(** A valid offset: a number, a function or a string that ends in ['%']. *)
Definition valid (v : TOffset) : Prop :=
  match v with
  | OfString s => endsWith s "%"
  | _ => True
  end.

(** The value of a number is an integer. *)
Definition integral (q : Q) : Prop := exists z : Z, q == inject_Z z.

End Spec.

(** ** Sample hosts and instances *)

Module Sample.

Definition rect (t l r b : Q) : DOMRect.t := DOMRect.mk t l r b (b - t) (r - l).

Definition elem (r : DOMRect.t) (h w : N) (st sl : Q) : HTMLElement.t :=
  HTMLElement.mk r h w st sl "0px" "0px" "0px" "0px".

(** A document whose client box is [w] by [h], scrolled to [(st, sl)], and
    whose elements all have the bounding rectangle [r]. *)
Definition dom (h w : N) (st sl : Q) (r : DOMRect.t) : Dom.t :=
  Dom.mk (elem (rect 0 0 (inject_Z (Z.of_N w)) (inject_Z (Z.of_N h))) h w st sl)
         (fun _ => elem r 0 0 0 0).

(** An instance on the document, with the snapshot [s]. *)
Definition inView (s : Scroll.t) (offset : IOffset.t) (mode : TPercentageMode)
    (amount : option IScrollAmount.t) : InView.t :=
  InView.mk (Context.mk Document None true s [] (Some 0%nat)) (Subject.mk 1)
            (Options.mk None [] offset mode amount).

Definition still : Scroll.t := Scroll.mk 0 0 0 0 Context.DIR_NONE Context.DIR_NONE.

Definition onlyTop (v : TOffset) : IOffset.t := IOffset.mk (Some v) None None None.

(** A page of 800 by 500, not scrolled, whose subject has the rectangle
    [top = t], [left = l], [right = r], [bottom = b]. *)
Definition page (t l r b : Q) : Dom.t := dom 500 800 0 0 (rect t l r b).

(** The same page once scrolled down by [st] and right by [sl]. *)
Definition scrolled (st sl : Q) : Dom.t := dom 500 800 st sl (rect 100 10 300 200).

(** An instance with default options and a fresh snapshot. *)
Definition plain : InView.t := inView still IOffset.empty parent None.

(** An instance whose only option is the offset [v] of the top edge. *)
Definition withTop (v : TOffset) : InView.t := inView still (onlyTop v) parent None.

(** An instance that ignores vertical scrolls of at most 5. *)
Definition gated : InView.t :=
  inView still IOffset.empty parent
    (Some (IScrollAmount.mk (Some (JS.ofZ 5)) (Some (JS.ofZ 0)))).

(** A subject whose top edge is at one half. *)
Definition halfPage : Dom.t := page (1 # 2) 0 10 10.

(** The bag [{offset: {top: v}}]. *)
Definition bag (v : TOffset) : IOptions.t :=
  IOptions.mk None None (Some (onlyTop v)) None None.

End Sample.

(** ** The instance over time and the vocabulary of its behaviour *)

Module Behaviour.

(** Every listener of the table was bound before [fresh]: the table never
    holds a function that has not been created yet. *)
Definition bounded (tbl : EventTarget.t) : Prop :=
  Forall (fun r => (EventTarget.listener r < EventTarget.fresh tbl)%nat)
    (EventTarget.registered tbl).

(** What the listener [bound] of a context on [node] subscribes to: the
    scroll event of the node and the events [evs] of the window. *)
Definition subscriptions (node : Node) (bound : nat) (evs : list string)
    : list EventTarget.registration :=
  EventTarget.reg (EventTarget.OfNode node) "scroll" bound
  :: map (fun ev => EventTarget.reg EventTarget.Window ev bound) evs.

(** The host fires the events of the list in order, each one on the host as
    it is at that time; the final instance and all the calls to the
    callback. *)
Fixpoint run (events : list (Event * Dom.t)) (this : InView.t)
    : InView.t * list IVisibility.t :=
  match events with
  | [] => (this, [])
  | (e, dom) :: rest =>
      let after := InView.onEvent e dom this in
      let final := run rest (fst after) in
      (fst final, snd after ++ snd final)
  end.



(** A configured amount that can suppress an evaluation: a positive number. *)
Definition positive (amount : option JS.number) : Prop :=
  match amount with
  | Some (JS.Num t) => 0 < t
  | _ => False
  end.

(** The top edge of a box is not below its bottom edge, nor its left edge
    to the right of its right edge. *)
Definition ordered (b : Box.t) : Prop :=
  JS.Le (Box.top b) (Box.bottom b) /\ JS.Le (Box.left b) (Box.right b).

(** The node the constructor of [InView] wraps in its context. *)
Definition contextNode (options : IOptions.t) : Node :=
  match IOptions.context options with
  | Some c => Element c
  | None => Document
  end.

(** One of the four quadrant flags of a record is set. *)
Definition someQuadrant (v : IVisibility.t) : bool :=
  (IVisibility.topLeft v || IVisibility.topRight v
   || IVisibility.bottomLeft v || IVisibility.bottomRight v)%bool.

End Behaviour.

(** ** Further sample hosts and instances *)

Module Scenario.

(** A host table that already holds a listener of another component. *)
Definition busy : EventTarget.t :=
  EventTarget.mk 3 [EventTarget.reg EventTarget.Window "resize" 1;
                    EventTarget.reg (EventTarget.OfNode Document) "scroll" 2].

(** Three events on a page scrolled to 3, then to 40, then resized there. *)
Definition session : list (Event * Dom.t) :=
  [("scroll"%string, Sample.scrolled 3 0);
   ("scroll"%string, Sample.scrolled 40 0);
   ("resize"%string, Sample.scrolled 40 0)].

(** The bag [{scrollAmount: {top: 5}}]. *)
Definition gatedBag : IOptions.t :=
  IOptions.mk None None None None (Some (IScrollAmount.mk (Some (JS.ofZ 5)) None)).

(** The bag [{context: element 7}]. *)
Definition inElement : IOptions.t := IOptions.mk (Some 7%nat) None None None None.

(** An element whose margins are [10px] at the top and empty at the bottom. *)
Definition margined : Dom.t :=
  Dom.mk (Sample.elem (Sample.rect 0 0 800 500) 500 800 0 0)
         (fun _ => HTMLElement.mk (Sample.rect 0 0 30 20) 0 0 0 0 "10px" "" "auto" "4px").

End Scenario.

(** ** The model on concrete inputs *)

Example parseInt_percentage : JS.parseInt "50%" = JS.ofZ 50.
Proof. reflexivity. Qed.

Example parseInt_leading_integer : JS.parseInt "  -12.5%" = JS.ofZ (-12).
Proof. reflexivity. Qed.

Example parseInt_no_digit : JS.parseInt "%" = JS.NaN /\ JS.parseInt "" = JS.NaN.
Proof. split; reflexivity. Qed.

Example lastIndexOf_values :
  JS.lastIndexOf "5%0%" "%" = 3%Z
  /\ JS.lastIndexOf "50" "%" = (-1)%Z
  /\ JS.lastIndexOf "" "%" = (-1)%Z.
Proof. repeat split. Qed.

(** A subject fully inside a document of height 500. *)
Example subject_inside :
  InView.eventsHandler (Sample.page 100 10 300 200) Sample.plain
  = [IVisibility.mk true true true true true].
Proof. reflexivity. Qed.

(** A subject fully above the context. *)
Example subject_above :
  InView.eventsHandler (Sample.page (-50) 10 300 (-10)) Sample.plain
  = [IVisibility.mk false false false false false].
Proof. reflexivity. Qed.

(** The offset ["50"] is rejected and nothing is registered. *)
Example constructor_rejects_plain_number_string :
  InView.constructor Sample.halfPage EventTarget.empty 1 (Sample.bag (OfString "50"))
  = (EventTarget.empty, JS.Throw (JS.TypeError InView.message)).
Proof. reflexivity. Qed.

(** [stop] removes what the constructor registered. *)
Example stop_unregisters :
  match InView.constructor Sample.halfPage EventTarget.empty 1 IOptions.empty with
  | (tbl, JS.Normal this) => EventTarget.registered (InView.stop this tbl) = []
  | _ => False
  end.
Proof. reflexivity. Qed.

(** ** Comparisons of numbers *)

Section Comparisons.

Lemma Qlt_bool_iff (x y : Q) : JS.Qlt_bool x y = true <-> x < y.
Proof.
  unfold JS.Qlt_bool. rewrite negb_true_iff. split; intros H.
  - apply Qnot_le_lt. intros L. apply Qle_bool_iff in L. congruence.
  - destruct (Qle_bool y x) eqn:E; [|reflexivity].
    apply Qle_bool_iff in E. exfalso. exact (Qlt_not_le _ _ H E).
Qed.

Lemma le_iff (a b : JS.number) : JS.le a b = true <-> JS.Le a b.
Proof.
  destruct a as [|x], b as [|y]; simpl; try (split; [discriminate | contradiction]).
  apply Qle_bool_iff.
Qed.

Lemma lt_iff (a b : JS.number) : JS.lt a b = true <-> JS.Lt a b.
Proof.
  destruct a as [|x], b as [|y]; simpl; try (split; [discriminate | contradiction]).
  apply Qlt_bool_iff.
Qed.

Lemma ge_iff (a b : JS.number) : JS.ge a b = true <-> JS.Le b a.
Proof. apply le_iff. Qed.

Lemma gt_iff (a b : JS.number) : JS.gt a b = true <-> JS.Lt b a.
Proof. apply lt_iff. Qed.

Lemma Lt_not_Le (a b : JS.number) : JS.Lt a b -> ~ JS.Le b a.
Proof.
  destruct a as [|x], b as [|y]; simpl; try contradiction.
  intros H L. exact (Qlt_not_le _ _ H L).
Qed.

Lemma Lt_Le (a b : JS.number) : JS.Lt a b -> JS.Le a b.
Proof.
  destruct a as [|x], b as [|y]; simpl; try contradiction. apply Qlt_le_weak.
Qed.

Lemma Eq_Le (a b : JS.number) : JS.Eq a b -> JS.Le a b /\ JS.Le b a.
Proof.
  destruct a as [|x], b as [|y]; simpl; try contradiction.
  intros E. split; rewrite E; apply Qle_refl.
Qed.

Lemma Eq_not_Lt (a b : JS.number) : JS.Eq a b -> ~ JS.Lt a b.
Proof.
  destruct a as [|x], b as [|y]; simpl; try contradiction.
  intros E L. rewrite E in L. exact (Qlt_irrefl _ L).
Qed.

Lemma floor_eq (x y : Q) : x == y -> JS.floor (JS.Num x) = JS.floor (JS.Num y).
Proof. intros E. simpl. now rewrite E. Qed.

End Comparisons.

Ltac reflect_cmp :=
  repeat rewrite ?andb_true_iff, ?orb_true_iff, ?andb_false_iff, ?orb_false_iff,
    ?le_iff, ?lt_iff, ?ge_iff, ?gt_iff.

(** ** The scroll snapshot *)

Section Snapshot.

Lemma direction_of_delta (cur prev : Q) (none pos neg : Z) :
  none <> pos -> none <> neg -> pos <> neg ->
  let d := cur - prev in
  let dir := if Qeq_bool cur prev then none
             else if JS.Qlt_bool prev cur then pos else neg in
  (dir = none <-> d == 0) /\ (dir = pos <-> 0 < d) /\ (dir = neg <-> d < 0).
Proof.
  intros Hnp Hnn Hpn d dir. subst d dir.
  destruct (Qeq_bool cur prev) eqn:E.
  - apply Qeq_bool_iff in E.
    repeat split; intros H; try congruence; try lra; exfalso; lra.
  - apply Qeq_bool_neq in E.
    destruct (JS.Qlt_bool prev cur) eqn:L.
    + apply Qlt_bool_iff in L.
      repeat split; intros H; try congruence; try lra; exfalso; try lra; congruence.
    + assert (~ prev < cur) as NL by (rewrite <- Qlt_bool_iff; congruence).
      assert (cur < prev) as G.
      { destruct (Q_dec cur prev) as [[?|?]|?]; [assumption | contradiction | contradiction]. }
      repeat split; intros H; try congruence; try lra; exfalso; try lra; congruence.
Qed.

Lemma populateScroll_consistent (dom : Dom.t) (that : Context.t) :
  Spec.consistent (Context.scroll (Context.populateScroll dom that)).
Proof.
  unfold Spec.consistent, Context.populateScroll; cbn [Context.scroll Scroll.dirY
    Scroll.dirX Scroll.topDiff Scroll.leftDiff].
  pose proof (direction_of_delta
    (HTMLElement.scrollTop (Context.getElement dom (Context.element that)))
    (Scroll.top (Context.scroll that))
    Context.DIR_NONE Context.DIR_DOWN Context.DIR_UP) as HY.
  pose proof (direction_of_delta
    (HTMLElement.scrollLeft (Context.getElement dom (Context.element that)))
    (Scroll.left (Context.scroll that))
    Context.DIR_NONE Context.DIR_RIGHT Context.DIR_LEFT) as HX.
  cbv zeta in HY, HX.
  destruct HY as (Y1 & Y2 & Y3); [discriminate ..|].
  destruct HX as (X1 & X2 & X3); [discriminate ..|].
  repeat split; first [apply Y1 | apply Y2 | apply Y3 | apply X1 | apply X2 | apply X3];
    assumption.
Qed.

Lemma listen_scroll (w : option (list string)) (that : Context.t) (tbl : EventTarget.t) :
  Context.scroll (fst (Context.listen w that tbl)) = Context.scroll that.
Proof. unfold Context.listen. destruct w; reflexivity. Qed.

Lemma onEvent_context (e : Event) (dom : Dom.t) (this : InView.t) :
  InView.context (fst (InView.onEvent e dom this))
  = Context.populateScroll dom
      (Context.mk (Context.element (InView.context this)) (Some e)
         (Context.isDoc (InView.context this)) (Context.scroll (InView.context this))
         (Context.windowEvents (InView.context this))
         (Context.boundListener (InView.context this))).
Proof. reflexivity. Qed.

End Snapshot.

(** ** The noise gate *)

Section NoiseGate.

Lemma belowScrollAmount_iff (this : InView.t) :
  InView.belowScrollAmount this = true <-> Spec.insignificant this.
Proof.
  unfold InView.belowScrollAmount, Spec.insignificant, Spec.noise.
  cbv zeta. reflect_cmp. reflexivity.
Qed.

Lemma belowScrollAmount_false_iff (this : InView.t) :
  InView.belowScrollAmount this = false <-> ~ Spec.insignificant this.
Proof.
  rewrite <- belowScrollAmount_iff.
  destruct (InView.belowScrollAmount this); split; intros H;
    congruence || (exfalso; apply H; reflexivity) || discriminate.
Qed.

Lemma eventsHandler_suppressed (dom : Dom.t) (this : InView.t) :
  Spec.insignificant this -> InView.eventsHandler dom this = [].
Proof.
  intros H. apply belowScrollAmount_iff in H.
  unfold InView.eventsHandler. now rewrite H.
Qed.

Lemma eventsHandler_fires (dom : Dom.t) (this : InView.t) :
  ~ Spec.insignificant this ->
  InView.eventsHandler dom this
  = [InView.visibility (InView.parentBox dom this) (InView.childBox dom this)].
Proof.
  intros H. apply belowScrollAmount_false_iff in H.
  unfold InView.eventsHandler. now rewrite H.
Qed.

Lemma onEvent_calls (e : Event) (dom : Dom.t) (this : InView.t) :
  snd (InView.onEvent e dom this)
  = InView.eventsHandler dom (fst (InView.onEvent e dom this)).
Proof. reflexivity. Qed.

End NoiseGate.

(** ** Properties of the scroll snapshot and of the noise gate *)

(** C8: after every run of [populateScroll] the directions agree with the
    deltas: [dirY] is [DIR_NONE] iff [topDiff] is zero, [DIR_DOWN] iff it is
    positive and [DIR_UP] iff it is negative, and likewise [dirX] with
    [DIR_NONE], [DIR_RIGHT] and [DIR_LEFT] for [leftDiff].  This holds for
    the update itself, for a freshly constructed context, for the context
    of a freshly constructed instance and after every event. *)
Theorem snapshot_directions_follow_deltas :
  (forall dom that,
      Spec.consistent (Context.scroll (Context.populateScroll dom that)))
  /\ (forall dom element,
         Spec.consistent (Context.scroll (Context.constructor dom element)))
  /\ (forall dom tbl element options tbl' this,
         InView.constructor dom tbl element options = (tbl', JS.Normal this) ->
         Spec.consistent (Context.scroll (InView.context this)))
  /\ (forall e dom this,
         Spec.consistent
           (Context.scroll (InView.context (fst (InView.onEvent e dom this))))).
Proof.
  split; [|split; [|split]].
  - apply populateScroll_consistent.
  - intros dom element. apply populateScroll_consistent.
  - intros dom tbl element options tbl' this H.
    unfold InView.constructor in H.
    destruct (InView.validateOptions (InView.withDefaults options)); [|discriminate].
    destruct (Context.listen _ _ tbl) as [ctx tbl0] eqn:L.
    injection H as _ <-. cbn [InView.context].
    replace ctx with (fst (Context.listen
      (Some (Options.windowEvents (InView.withDefaults options)))
      (Context.constructor dom
         match Options.context (InView.withDefaults options) with
         | Some c => Element c
         | None => Document
         end) tbl)) by now rewrite L.
    rewrite listen_scroll. apply populateScroll_consistent.
  - intros e dom this. rewrite onEvent_context. apply populateScroll_consistent.
Qed.

Lemma snapshot_directions_witness :
  exists tbl this,
    InView.constructor (Sample.scrolled (7 # 2) 0) EventTarget.empty 1 IOptions.empty
    = (tbl, JS.Normal this)
    /\ Spec.consistent (Context.scroll (InView.context this))
    /\ Scroll.dirY (Context.scroll (InView.context this)) = Context.DIR_DOWN.
Proof.
  eexists. eexists. split; [reflexivity|]. split; [|reflexivity].
  eapply (proj1 (proj2 (proj2 snapshot_directions_follow_deltas))
            (Sample.scrolled (7 # 2) 0) EventTarget.empty 1%nat IOptions.empty).
  reflexivity.
Defined.

(** C3: for every event, if the refreshed deltas satisfy
    [0 < |topDiff| <= scrollAmount.top] or [0 < |leftDiff| <= scrollAmount.left]
    the callback is not invoked (whatever the delta on the other axis);
    otherwise it is invoked exactly once.  The deltas are the differences
    between the scroll offsets of the host and those of the previous
    snapshot. *)
Theorem noise_gate_decides_callback (e : Event) (dom : Dom.t) (this : InView.t) :
  let after := fst (InView.onEvent e dom this) in
  let calls := snd (InView.onEvent e dom this) in
  let element := Context.getElement dom (Context.element (InView.context this)) in
  Context.scrollTopDiff (InView.context after)
  = HTMLElement.scrollTop element - Context.scrollTop (InView.context this)
  /\ Context.scrollLeftDiff (InView.context after)
     = HTMLElement.scrollLeft element - Context.scrollLeft (InView.context this)
  /\ InView.options after = InView.options this
  /\ (Spec.insignificant after -> calls = [])
  /\ (~ Spec.insignificant after -> exists v, calls = [v]).
Proof.
  cbv zeta. split; [reflexivity|]. split; [reflexivity|]. split; [reflexivity|].
  rewrite onEvent_calls. split; intros H.
  - now apply eventsHandler_suppressed.
  - eexists. now apply eventsHandler_fires.
Qed.

Lemma noise_gate_witness :
  snd (InView.onEvent "scroll"%string (Sample.scrolled 3 40) Sample.gated) = []
  /\ (exists v, snd (InView.onEvent "scroll"%string (Sample.scrolled 6 0) Sample.gated) = [v]).
Proof.
  split.
  - apply (noise_gate_decides_callback "scroll"%string (Sample.scrolled 3 40)).
    apply belowScrollAmount_iff. vm_compute. reflexivity.
  - apply (noise_gate_decides_callback "scroll"%string (Sample.scrolled 6 0)).
    apply belowScrollAmount_false_iff. vm_compute. reflexivity.
Defined.

(** C10: [recalculate] runs the handler on the snapshot left by the last
    event, without refreshing it: whatever the host looks like now, it is
    suppressed when the stored deltas are noise on one axis, in particular
    right after an event that left such deltas, and it invokes the callback
    once when they are not. *)
Theorem recalculate_uses_stored_deltas :
  (forall dom this, InView.recalculate dom this = InView.eventsHandler dom this)
  /\ (forall dom this, Spec.insignificant this -> InView.recalculate dom this = [])
  /\ (forall e dom dom' this,
         Spec.insignificant (fst (InView.onEvent e dom this)) ->
         snd (InView.onEvent e dom this) = []
         /\ InView.recalculate dom' (fst (InView.onEvent e dom this)) = [])
  /\ (forall dom this,
         ~ Spec.insignificant this -> exists v, InView.recalculate dom this = [v]).
Proof.
  split; [reflexivity|]. split; [|split].
  - intros dom this H. now apply eventsHandler_suppressed.
  - intros e dom dom' this H. split.
    + rewrite onEvent_calls. now apply eventsHandler_suppressed.
    + now apply eventsHandler_suppressed.
  - intros dom this H. eexists. now apply eventsHandler_fires.
Qed.

Lemma recalculate_witness :
  snd (InView.onEvent "scroll"%string (Sample.scrolled 3 0) Sample.gated) = []
  /\ InView.recalculate (Sample.scrolled 900 0)
       (fst (InView.onEvent "scroll"%string (Sample.scrolled 3 0) Sample.gated)) = [].
Proof.
  apply (proj1 (proj2 (proj2 recalculate_uses_stored_deltas))).
  apply belowScrollAmount_iff. vm_compute. reflexivity.
Defined.

(** ** The visibility computation *)

Section Visibility.

Lemma parentBox_ordered (dom : Dom.t) (this : InView.t) :
  JS.Le (Box.top (InView.parentBox dom this)) (Box.bottom (InView.parentBox dom this))
  /\ JS.Le (Box.left (InView.parentBox dom this)) (Box.right (InView.parentBox dom this)).
Proof.
  unfold InView.parentBox; cbn [Box.top Box.bottom Box.left Box.right JS.Le].
  assert (forall n : N, 0 <= inject_Z (Z.of_N n)) as Hn.
  { intros n. unfold Qle; cbn. lia. }
  pose proof (Hn (Context.innerHeight dom (InView.context this))).
  pose proof (Hn (Context.innerWidth dom (InView.context this))).
  split; lra.
Qed.

Lemma topVisible_iff (p c : Box.t) :
  InView.topVisible p c = true <-> Spec.within (Box.top p) (Box.top c) (Box.bottom p).
Proof. unfold InView.topVisible, Spec.within. reflect_cmp. reflexivity. Qed.

Lemma bottomVisible_iff (p c : Box.t) :
  InView.bottomVisible p c = true <-> Spec.within (Box.top p) (Box.bottom c) (Box.bottom p).
Proof. unfold InView.bottomVisible, Spec.within. reflect_cmp. tauto. Qed.

Lemma leftVisible_iff (p c : Box.t) :
  InView.leftVisible p c = true <-> Spec.within (Box.left p) (Box.left c) (Box.right p).
Proof. unfold InView.leftVisible, Spec.within. reflect_cmp. reflexivity. Qed.

Lemma rightVisible_iff (p c : Box.t) :
  InView.rightVisible p c = true
  <-> Spec.withinClosed (Box.left p) (Box.right c) (Box.right p).
Proof. unfold InView.rightVisible, Spec.withinClosed. reflect_cmp. tauto. Qed.

Lemma overflowY_iff (p c : Box.t) :
  InView.overflowY p c = true
  <-> Spec.covers (Box.top c) (Box.bottom c) (Box.top p) (Box.bottom p).
Proof. unfold InView.overflowY, Spec.covers. reflect_cmp. reflexivity. Qed.

Lemma overflowX_iff (p c : Box.t) :
  InView.overflowX p c = true
  <-> Spec.covers (Box.left c) (Box.right c) (Box.left p) (Box.right p).
Proof. unfold InView.overflowX, Spec.covers. reflect_cmp. reflexivity. Qed.

Lemma Le_trans (a b c : JS.number) : JS.Le a b -> JS.Le b c -> JS.Le a c.
Proof.
  destruct a, b, c; simpl; try contradiction. apply Qle_trans.
Qed.

Lemma not_true_false (b : bool) : ~ b = true -> b = false.
Proof. destruct b; [intros H; exfalso; now apply H | reflexivity]. Qed.

End Visibility.

(** C1: an evaluation that passes the noise gate hands the callback one
    record whose [visible] is [(topVisible || bottomVisible || overflowY)
    && (leftVisible || rightVisible || overflowX)], where [topVisible] iff
    [parentTop <= childTop < parentBottom], [bottomVisible] iff
    [parentTop <= childBottom < parentBottom], [leftVisible] iff
    [parentLeft <= childLeft < parentRight], [rightVisible] iff
    [parentLeft <= childRight <= parentRight], [overflowY] iff
    [childTop <= parentTop] and [childBottom >= parentBottom], [overflowX]
    iff [childLeft <= parentLeft] and [childRight >= parentRight].  In
    particular [childRight == parentRight] gives [rightVisible] and
    [childLeft == parentRight] gives no [leftVisible]. *)
Theorem visible_formula (dom : Dom.t) (this : InView.t) :
  ~ Spec.insignificant this ->
  let p := InView.parentBox dom this in
  let c := InView.childBox dom this in
  exists v,
    InView.eventsHandler dom this = [v]
    /\ IVisibility.visible v
       = ((InView.topVisible p c || InView.bottomVisible p c || InView.overflowY p c)
          && (InView.leftVisible p c || InView.rightVisible p c || InView.overflowX p c))%bool
    /\ (IVisibility.visible v = true <->
        (Spec.within (Box.top p) (Box.top c) (Box.bottom p)
         \/ Spec.within (Box.top p) (Box.bottom c) (Box.bottom p)
         \/ Spec.covers (Box.top c) (Box.bottom c) (Box.top p) (Box.bottom p))
        /\ (Spec.within (Box.left p) (Box.left c) (Box.right p)
            \/ Spec.withinClosed (Box.left p) (Box.right c) (Box.right p)
            \/ Spec.covers (Box.left c) (Box.right c) (Box.left p) (Box.right p)))
    /\ (InView.topVisible p c = true
        <-> Spec.within (Box.top p) (Box.top c) (Box.bottom p))
    /\ (InView.bottomVisible p c = true
        <-> Spec.within (Box.top p) (Box.bottom c) (Box.bottom p))
    /\ (InView.leftVisible p c = true
        <-> Spec.within (Box.left p) (Box.left c) (Box.right p))
    /\ (InView.rightVisible p c = true
        <-> Spec.withinClosed (Box.left p) (Box.right c) (Box.right p))
    /\ (InView.overflowY p c = true
        <-> Spec.covers (Box.top c) (Box.bottom c) (Box.top p) (Box.bottom p))
    /\ (InView.overflowX p c = true
        <-> Spec.covers (Box.left c) (Box.right c) (Box.left p) (Box.right p))
    /\ (JS.Eq (Box.right c) (Box.right p) -> InView.rightVisible p c = true)
    /\ (JS.Eq (Box.left c) (Box.right p) -> InView.leftVisible p c = false).
Proof.
  intros Hgate p c.
  exists (InView.visibility p c).
  split; [now apply eventsHandler_fires|].
  split; [reflexivity|].
  split.
  { cbn [InView.visibility IVisibility.visible].
    rewrite andb_true_iff, !orb_true_iff.
    rewrite topVisible_iff, bottomVisible_iff, leftVisible_iff, rightVisible_iff,
      overflowY_iff, overflowX_iff. tauto. }
  split; [apply topVisible_iff|].
  split; [apply bottomVisible_iff|].
  split; [apply leftVisible_iff|].
  split; [apply rightVisible_iff|].
  split; [apply overflowY_iff|].
  split; [apply overflowX_iff|].
  split.
  - intros E. apply rightVisible_iff. apply Eq_Le in E. destruct E as [E1 E2].
    split; [|exact E1].
    eapply Le_trans; [|exact E2]. apply (parentBox_ordered dom this).
  - intros E. apply not_true_false. rewrite leftVisible_iff.
    intros [_ L]. exact (Eq_not_Lt _ _ E L).
Qed.

Lemma visible_formula_witness :
  ~ Spec.insignificant Sample.plain
  /\ JS.Eq (Box.right (InView.childBox (Sample.page 100 10 800 200) Sample.plain))
           (Box.right (InView.parentBox (Sample.page 100 10 800 200) Sample.plain))
  /\ InView.rightVisible (InView.parentBox (Sample.page 100 10 800 200) Sample.plain)
       (InView.childBox (Sample.page 100 10 800 200) Sample.plain) = true
  /\ exists v,
       InView.eventsHandler (Sample.page 100 10 800 200) Sample.plain = [v]
       /\ IVisibility.visible v = true.
Proof.
  assert (~ Spec.insignificant Sample.plain) as G.
  { apply belowScrollAmount_false_iff. vm_compute. reflexivity. }
  assert (JS.Eq (Box.right (InView.childBox (Sample.page 100 10 800 200) Sample.plain))
            (Box.right (InView.parentBox (Sample.page 100 10 800 200) Sample.plain))) as E.
  { vm_compute. reflexivity. }
  destruct (visible_formula (Sample.page 100 10 800 200) Sample.plain G)
    as (v & Hv & Hvis & _ & _ & _ & _ & _ & _ & _ & HR & _).
  split; [exact G|]. split; [exact E|]. split; [exact (HR E)|].
  exists v. split; [exact Hv|]. rewrite Hvis. vm_compute. reflexivity.
Defined.

(** C2: when the effective box of the subject strictly straddles the
    visible box of the context on both axes, the callback receives
    [visible = true] and the four quadrant flags are all false. *)
Theorem straddling_subject_has_no_quadrant (dom : Dom.t) (this : InView.t) :
  ~ Spec.insignificant this ->
  let p := InView.parentBox dom this in
  let c := InView.childBox dom this in
  JS.Lt (Box.top c) (Box.top p) ->
  JS.Lt (Box.bottom p) (Box.bottom c) ->
  JS.Lt (Box.left c) (Box.left p) ->
  JS.Lt (Box.right p) (Box.right c) ->
  InView.eventsHandler dom this = [IVisibility.mk true false false false false].
Proof.
  intros Hgate p c HT HB HL HR.
  rewrite (eventsHandler_fires dom this Hgate). fold p c.
  assert (InView.topVisible p c = false) as TV.
  { apply not_true_false. rewrite topVisible_iff. intros [L _].
    exact (Lt_not_Le _ _ HT L). }
  assert (InView.bottomVisible p c = false) as BV.
  { apply not_true_false. rewrite bottomVisible_iff. intros [_ L].
    exact (Lt_not_Le _ _ HB (Lt_Le _ _ L)). }
  assert (InView.leftVisible p c = false) as LV.
  { apply not_true_false. rewrite leftVisible_iff. intros [L _].
    exact (Lt_not_Le _ _ HL L). }
  assert (InView.rightVisible p c = false) as RV.
  { apply not_true_false. rewrite rightVisible_iff. intros [_ L].
    exact (Lt_not_Le _ _ HR L). }
  assert (InView.overflowY p c = true) as OY.
  { apply overflowY_iff. split; now apply Lt_Le. }
  assert (InView.overflowX p c = true) as OX.
  { apply overflowX_iff. split; now apply Lt_Le. }
  unfold InView.visibility. rewrite TV, BV, LV, RV, OY, OX. reflexivity.
Qed.

Lemma straddling_subject_witness :
  InView.eventsHandler (Sample.page (-50) (-10) 900 600) Sample.plain
  = [IVisibility.mk true false false false false].
Proof.
  apply (straddling_subject_has_no_quadrant (Sample.page (-50) (-10) 900 600)).
  - apply belowScrollAmount_false_iff. vm_compute. reflexivity.
  - vm_compute. reflexivity.
  - vm_compute. reflexivity.
  - vm_compute. reflexivity.
  - vm_compute. reflexivity.
Defined.

(** ** The offset resolution *)

Section Offsets.

Variable dom : Dom.t.
Variable this : InView.t.
Variable position : Position.t.

Let raw : Q := InView.subjectEdge dom (InView.subject this) position.
Let configured : option TOffset :=
  IOffset.get (Options.offset (InView.options this)) position.

Lemma sign_value : InView.sign position = JS.Num (Spec.sign position).
Proof. destruct position; reflexivity. Qed.

Lemma dimension_value :
  InView.dimension dom this position = JS.Num (Spec.base dom this position).
Proof.
  unfold InView.dimension, Spec.base.
  destruct (Options.offsetPercentageMode (InView.options this)), position; reflexivity.
Qed.

Lemma resolve_none :
  configured = None -> InView.getSubjectPosition dom this position = JS.Num raw.
Proof.
  unfold configured, InView.getSubjectPosition. now intros ->.
Qed.




Lemma div_100 (d : Q) : JS.div (JS.Num d) (JS.ofZ 100) = JS.Num (d / 100).
Proof. reflexivity. Qed.

Lemma resolve_string (s : string) (percent : Z) :
  configured = Some (OfString s) -> JS.parseInt s = JS.ofZ percent ->
  InView.getSubjectPosition dom this position
  = JS.floor (JS.Num (raw + Spec.base dom this position / 100
                            * inject_Z percent * Spec.sign position)).
Proof.
  unfold configured, InView.getSubjectPosition. intros -> P.
  assert (JS.truthy_string s = true) as T.
  { destruct s; [discriminate P | reflexivity]. }
  cbn [InView.truthy]. rewrite T. cbn [negb].
  rewrite P, sign_value, dimension_value, div_100.
  apply floor_eq. fold raw. unfold JS.ofZ. ring.
Qed.


End Offsets.

Lemma integral_iff (q : Q) : q == inject_Z (Qfloor q) <-> Spec.integral q.
Proof.
  split.
  - intros H. now exists (Qfloor q).
  - intros [z Hz]. rewrite Hz at 1. rewrite Hz, Qfloor_Z. reflexivity.
Qed.




(** C5, amended: an edge with no offset configured resolves to the raw
    coordinate, unchanged; only the branches that apply an offset floor
    their result, so the value is [floor(raw)] exactly when [raw] is an
    integer. *)
Theorem unset_offset_returns_raw (dom : Dom.t) (this : InView.t)
    (position : Position.t) :
  IOffset.get (Options.offset (InView.options this)) position = None ->
  let raw := InView.subjectEdge dom (InView.subject this) position in
  InView.getSubjectPosition dom this position = JS.Num raw
  /\ (JS.Eq (InView.getSubjectPosition dom this position) (JS.floor (JS.Num raw))
      <-> Spec.integral raw).
Proof.
  intros H raw. rewrite (resolve_none dom this position H). fold raw.
  split; [reflexivity|]. apply integral_iff.
Qed.

Lemma unset_offset_witness :
  InView.getSubjectPosition Sample.halfPage Sample.plain Position.top = JS.Num (1 # 2).
Proof.
  apply (unset_offset_returns_raw Sample.halfPage Sample.plain Position.top eq_refl).
Defined.

Lemma unset_offset_unfloored :
  IOffset.get (Options.offset (InView.options Sample.plain)) Position.top = None
  /\ InView.subjectEdge Sample.halfPage (InView.subject Sample.plain) Position.top = 1 # 2
  /\ InView.getSubjectPosition Sample.halfPage Sample.plain Position.top = JS.Num (1 # 2)
  /\ JS.floor (JS.Num (1 # 2)) = JS.ofZ 0
  /\ ~ JS.Eq (InView.getSubjectPosition Sample.halfPage Sample.plain Position.top)
         (JS.floor (JS.Num (1 # 2))).
Proof.
  repeat split. vm_compute. discriminate.
Qed.

(** C6, amended: for every geometry and every edge, the offset ["0%"]
    yields the floor of the value obtained with no offset for that edge;
    the two values agree exactly when the raw coordinate is an integer. *)
Theorem zero_percent_floors_unset (dom : Dom.t) (this unset : InView.t)
    (position : Position.t) :
  InView.subject unset = InView.subject this ->
  IOffset.get (Options.offset (InView.options this)) position
  = Some (OfString "0%") ->
  IOffset.get (Options.offset (InView.options unset)) position = None ->
  InView.getSubjectPosition dom this position
  = JS.floor (InView.getSubjectPosition dom unset position)
  /\ (JS.Eq (InView.getSubjectPosition dom this position)
            (InView.getSubjectPosition dom unset position)
      <-> Spec.integral (InView.subjectEdge dom (InView.subject this) position)).
Proof.
  intros S H0 HN.
  rewrite (resolve_none dom unset position HN), S.
  rewrite (resolve_string dom this position "0%" 0 H0 eq_refl).
  assert (JS.floor
            (JS.Num (InView.subjectEdge dom (InView.subject this) position
                     + Spec.base dom this position / 100 * inject_Z 0
                       * Spec.sign position))
          = JS.floor (JS.Num (InView.subjectEdge dom (InView.subject this) position)))
    as E.
  { apply floor_eq. unfold inject_Z. field. }
  rewrite E. split; [reflexivity|].
  rewrite <- integral_iff. cbn [JS.floor JS.ofZ JS.Eq].
  split; intros H; now symmetry.
Qed.

Lemma zero_percent_witness :
  InView.getSubjectPosition (Sample.page 7 0 10 10) (Sample.withTop (OfString "0%"))
    Position.top
  = JS.floor (InView.getSubjectPosition (Sample.page 7 0 10 10) Sample.plain Position.top).
Proof.
  apply (zero_percent_floors_unset (Sample.page 7 0 10 10)
           (Sample.withTop (OfString "0%")) Sample.plain Position.top
           eq_refl eq_refl eq_refl).
Defined.

Lemma zero_percent_differs_from_unset :
  IOffset.get (Options.offset (InView.options (Sample.withTop (OfString "0%"))))
    Position.top = Some (OfString "0%")
  /\ IOffset.get (Options.offset (InView.options Sample.plain)) Position.top = None
  /\ InView.getSubjectPosition Sample.halfPage (Sample.withTop (OfString "0%"))
       Position.top = JS.ofZ 0
  /\ InView.getSubjectPosition Sample.halfPage Sample.plain Position.top = JS.Num (1 # 2)
  /\ ~ JS.Eq
         (InView.getSubjectPosition Sample.halfPage (Sample.withTop (OfString "0%"))
            Position.top)
         (InView.getSubjectPosition Sample.halfPage Sample.plain Position.top).
Proof.
  repeat split. vm_compute. discriminate.
Qed.



(** ** The validation of the options *)

Section Validation.

Lemma lastChar_cons (a : ascii) (s : string) :
  s <> EmptyString -> Spec.lastChar (String a s) = Spec.lastChar s.
Proof. destruct s; [congruence | reflexivity]. Qed.

Lemma lastIndexOf_from_range (c : ascii) (s : string) :
  forall i, (0 <= i)%Z ->
    JS.lastIndexOf_from i s c = (-1)%Z
    \/ (i <= JS.lastIndexOf_from i s c < i + JS.length s)%Z.
Proof.
  unfold JS.length.
  induction s as [|a s IH]; intros i Hi; [now left|].
  cbn [JS.lastIndexOf_from String.length].
  destruct (IH (i + 1)%Z ltac:(lia)) as [E|R].
  - rewrite E. cbn. destruct (Ascii.eqb a c); [right; lia | now left].
  - destruct (Z.eqb_spec (JS.lastIndexOf_from (i + 1) s c) (-1)); [lia|].
    right. lia.
Qed.

Lemma lastIndexOf_from_last (c : ascii) (s : string) :
  forall i, (0 <= i)%Z -> s <> EmptyString ->
    JS.lastIndexOf_from i s c = (i + JS.length s - 1)%Z <-> Spec.endsWith s c.
Proof.
  unfold JS.length, Spec.endsWith.
  induction s as [|a s IH]; intros i Hi Hs; [congruence|].
  destruct s as [|b s].
  - cbn. destruct (Ascii.eqb_spec a c) as [->|N].
    + split; [reflexivity | intros _; lia].
    + split; [lia | congruence].
  - rewrite lastChar_cons by discriminate.
    rewrite <- (IH (i + 1)%Z ltac:(lia) ltac:(discriminate)).
    change (JS.lastIndexOf_from i (String a (String b s)) c)
      with (let r := JS.lastIndexOf_from (i + 1) (String b s) c in
            if (r =? -1)%Z then (if Ascii.eqb a c then i else (-1)%Z) else r).
    cbv zeta.
    pose proof (lastIndexOf_from_range c (String b s) (i + 1)%Z ltac:(lia)) as R.
    unfold JS.length in R.
    change (String.length (String a (String b s)))
      with (S (String.length (String b s))).
    destruct (Z.eqb_spec (JS.lastIndexOf_from (i + 1) (String b s) c) (-1)) as [E|E].
    + rewrite E. cbn [String.length]. destruct (Ascii.eqb a c); split; lia.
    + split; lia.
Qed.

(** The test of [validateOptions] on a string: it passes on the strings that
    end in ['%'] and, both sides being [-1], on the empty string. *)
Lemma percentage_test (s : string) :
  (JS.lastIndexOf s "%" =? JS.length s - 1)%Z = true
  <-> s = EmptyString \/ Spec.endsWith s "%".
Proof.
  rewrite Z.eqb_eq. destruct s as [|a s].
  - split; [now left | reflexivity].
  - unfold JS.lastIndexOf.
    rewrite (lastIndexOf_from_last "%" (String a s) 0 ltac:(lia) ltac:(discriminate)).
    split; [now right | intros [H|H]; [discriminate | exact H]].
Qed.

Lemma validateValues_throws (vs : list TOffset) :
  Exists Spec.malformed vs ->
  InView.validateValues vs = JS.Throw (JS.TypeError InView.message).
Proof.
  induction vs as [|v vs IH]; intros H; [inversion H|].
  cbn [InView.validateValues].
  destruct v as [n|s|f].
  - apply IH. inversion H as [? ? M|]; [contradiction M | assumption].
  - destruct (JS.lastIndexOf s "%" =? JS.length s - 1)%Z eqn:T.
    + cbn [negb]. apply IH. inversion H as [? ? M|]; [|assumption].
      apply percentage_test in T. destruct M as [M1 M2]. tauto.
    + reflexivity.
  - apply IH. inversion H as [? ? M|]; [contradiction M | assumption].
Qed.

Lemma validateValues_passes (vs : list TOffset) :
  Forall Spec.valid vs -> InView.validateValues vs = JS.Normal tt.
Proof.
  induction 1 as [|v vs Hv _ IH]; [reflexivity|].
  cbn [InView.validateValues]. destruct v as [n|s|f]; try exact IH.
  assert ((JS.lastIndexOf s "%" =? JS.length s - 1)%Z = true) as T.
  { apply percentage_test. right. exact Hv. }
  rewrite T. exact IH.
Qed.

Lemma values_of_bag (options : IOptions.t) (offset : IOffset.t) :
  IOptions.offset options = Some offset ->
  IOffset.values (Options.offset (InView.withDefaults options)) = IOffset.values offset.
Proof. intros H. unfold InView.withDefaults. cbn. now rewrite H. Qed.

(** A bag with a malformed string offset: the constructor throws a
    [TypeError] and the listener table of the host is left as it was. *)
Lemma constructor_rejects_malformed (dom : Dom.t) (tbl : EventTarget.t) (element : nat)
    (options : IOptions.t) (offset : IOffset.t) :
  IOptions.offset options = Some offset ->
  Exists Spec.malformed (IOffset.values offset) ->
  InView.constructor dom tbl element options
  = (tbl, JS.Throw (JS.TypeError InView.message)).
Proof.
  intros HO HM. unfold InView.constructor, InView.validateOptions.
  rewrite (values_of_bag options offset HO), (validateValues_throws _ HM).
  reflexivity.
Qed.

(** A bag whose offsets are all valid, or that has no offsets: the
    constructor returns an instance, and its listener is in the table. *)
Lemma constructor_accepts_valid (dom : Dom.t) (tbl : EventTarget.t) (element : nat)
    (options : IOptions.t) :
  match IOptions.offset options with
  | Some offset => Forall Spec.valid (IOffset.values offset)
  | None => True
  end ->
  exists tbl' this, InView.constructor dom tbl element options = (tbl', JS.Normal this).
Proof.
  intros HV. unfold InView.constructor, InView.validateOptions.
  assert (InView.validateValues
            (IOffset.values (Options.offset (InView.withDefaults options)))
          = JS.Normal tt) as E.
  { destruct (IOptions.offset options) as [offset|] eqn:HO.
    - rewrite (values_of_bag options offset HO). now apply validateValues_passes.
    - unfold InView.withDefaults. cbn. rewrite HO. reflexivity. }
  rewrite E. destruct (Context.listen _ _ tbl) as [ctx tbl']. eauto.
Qed.

End Validation.

(** C9: a string offset that does not end in ['%'] must make the
    construction throw.  The empty string does not end in ['%'], yet the
    options [{offset: {top: ''}}] pass the validation: the constructor
    returns an instance and registers its listener. *)
Theorem empty_string_offset_is_accepted :
  ~ Spec.endsWith "" "%"
  /\ InView.validateOptions (InView.withDefaults (Sample.bag (OfString "")))
     = JS.Normal tt
  /\ exists tbl this,
       InView.constructor Sample.halfPage EventTarget.empty 1 (Sample.bag (OfString ""))
       = (tbl, JS.Normal this)
       /\ EventTarget.registered tbl
          = [EventTarget.reg (EventTarget.OfNode Document) "scroll" 0;
             EventTarget.reg EventTarget.Window "DOMContentLoaded" 0;
             EventTarget.reg EventTarget.Window "resize" 0].
Proof.
  split; [discriminate|]. split; [reflexivity|].
  eexists. eexists. split; reflexivity.
Qed.

(** ** The listener table *)

Section Table.

Lemma node_eqb_eq (a b : Node) : EventTarget.node_eqb a b = true <-> a = b.
Proof.
  destruct a as [|i], b as [|j]; cbn; try (split; [discriminate | congruence]).
  - split; reflexivity.
  - rewrite Nat.eqb_eq. split; congruence.
Qed.

Lemma target_eqb_eq (a b : EventTarget.target) :
  EventTarget.target_eqb a b = true <-> a = b.
Proof.
  destruct a as [n|], b as [m|]; cbn; try (split; [discriminate | congruence]).
  - rewrite node_eqb_eq. split; congruence.
  - split; reflexivity.
Qed.

Lemma same_eq (a b : EventTarget.registration) : EventTarget.same a b = true <-> a = b.
Proof.
  destruct a as [ta sa la], b as [tb sb lb]. unfold EventTarget.same; cbn.
  rewrite !andb_true_iff, target_eqb_eq, String.eqb_eq, Nat.eqb_eq.
  split; [intros [[-> ->] ->]; reflexivity | intros H; injection H; auto].
Qed.

Lemma same_refl (a : EventTarget.registration) : EventTarget.same a a = true.
Proof. now apply same_eq. Qed.

Lemma same_listener (a b : EventTarget.registration) :
  EventTarget.listener a <> EventTarget.listener b -> EventTarget.same a b = false.
Proof.
  intros N. destruct (EventTarget.same a b) eqn:E; [|reflexivity].
  apply same_eq in E. congruence.
Qed.

Lemma existsb_same (r : EventTarget.registration) (l : list EventTarget.registration) :
  existsb (EventTarget.same r) l = true <-> In r l.
Proof.
  rewrite existsb_exists. split.
  - intros (x & Hx & E). apply same_eq in E. now subst.
  - intros H. exists r. split; [exact H | apply same_refl].
Qed.

Lemma filter_keeps {A : Type} (f : A -> bool) (l : list A) :
  Forall (fun x => f x = true) l -> filter f l = l.
Proof.
  induction 1 as [|x l Hx _ IH]; [reflexivity|]. cbn. now rewrite Hx, IH.
Qed.

Lemma filter_drops {A : Type} (f : A -> bool) (l : list A) :
  Forall (fun x => f x = false) l -> filter f l = [].
Proof.
  induction 1 as [|x l Hx _ IH]; [reflexivity|]. cbn. now rewrite Hx, IH.
Qed.

Lemma filter_twice {A : Type} (f g : A -> bool) (l : list A) :
  filter f (filter g l) = filter (fun x => g x && f x)%bool l.
Proof.
  induction l as [|x l IH]; [reflexivity|]. cbn.
  destruct (g x); cbn; [destruct (f x)|]; now rewrite IH.
Qed.

Lemma existsb_mapped {A B : Type} (f : B -> bool) (g : A -> B) (l : list A) :
  existsb f (map g l) = existsb (fun x => f (g x)) l.
Proof. induction l as [|x l IH]; [reflexivity|]. cbn. now rewrite IH. Qed.

Lemma add_registered (tg : EventTarget.target) (ty : string) (l : nat)
    (tbl : EventTarget.t) :
  EventTarget.fresh (EventTarget.addEventListener tg ty l tbl) = EventTarget.fresh tbl
  /\ EventTarget.registered (EventTarget.addEventListener tg ty l tbl)
     = EventTarget.registered tbl
       ++ (if existsb (EventTarget.same (EventTarget.reg tg ty l))
                (EventTarget.registered tbl)
           then [] else [EventTarget.reg tg ty l]).
Proof.
  unfold EventTarget.addEventListener.
  destruct (existsb _ _); cbn; [now rewrite app_nil_r | split; reflexivity].
Qed.

Lemma add_in (tg : EventTarget.target) (ty : string) (l : nat) (tbl : EventTarget.t)
    (r : EventTarget.registration) :
  In r (EventTarget.registered (EventTarget.addEventListener tg ty l tbl))
  <-> In r (EventTarget.registered tbl) \/ r = EventTarget.reg tg ty l.
Proof.
  rewrite (proj2 (add_registered tg ty l tbl)), in_app_iff.
  destruct (existsb _ _) eqn:E.
  - apply existsb_same in E. cbn. split; [tauto | intros [H|E0]; subst; auto].
  - cbn. split; [intros [H|[E1|F]]; [auto | subst; auto | contradiction] | intros [H|E1]; subst; auto].
Qed.

(** Subscribing [bound] to the events [evs] of the window appends
    registrations of [bound] only. *)
Lemma add_all (bound : nat) (evs : list string) :
  forall tbl,
    let tbl' :=
      fold_left
        (fun tbl ev => EventTarget.addEventListener EventTarget.Window ev bound tbl)
        evs tbl in
    EventTarget.fresh tbl' = EventTarget.fresh tbl
    /\ (exists added,
           EventTarget.registered tbl' = EventTarget.registered tbl ++ added
           /\ Forall (fun r => exists ev, In ev evs
                                 /\ r = EventTarget.reg EventTarget.Window ev bound)
                added)
    /\ (forall r,
           In r (EventTarget.registered tbl')
           <-> In r (EventTarget.registered tbl)
               \/ exists ev, In ev evs /\ r = EventTarget.reg EventTarget.Window ev bound).
Proof.
  induction evs as [|ev evs IH]; intros tbl; cbn [fold_left].
  - split; [reflexivity|]. split.
    + exists []. now rewrite app_nil_r.
    + intros r. split; [auto | intros [H|(ev & [] & _)]; exact H].
  - specialize (IH (EventTarget.addEventListener EventTarget.Window ev bound tbl)).
    cbv zeta in IH |- *. destruct IH as (F & (added & R & A) & M).
    destruct (add_registered EventTarget.Window ev bound tbl) as [F0 R0].
    split; [congruence|]. split.
    + rewrite R, R0, <- app_assoc. eexists. split; [reflexivity|].
      apply Forall_app. split.
      * destruct (existsb _ _); constructor; [|constructor].
        exists ev. split; [now left | reflexivity].
      * eapply Forall_impl; [|exact A].
        intros r (ev' & I & E). exists ev'. split; [now right | exact E].
    + intros r. rewrite M, add_in. split.
      * intros [[H| ->]|(ev' & I & E)]; auto.
        -- right. exists ev. split; [now left | reflexivity].
        -- right. exists ev'. split; [now right | exact E].
      * intros [H|(ev' & [<-|I] & E)]; auto.
        right. exists ev'. auto.
Qed.

Lemma remove_registered (tg : EventTarget.target) (ty : string) (l : nat)
    (tbl : EventTarget.t) :
  EventTarget.removeEventListener tg ty (Some l) tbl
  = EventTarget.mk (EventTarget.fresh tbl)
      (filter (fun r => negb (EventTarget.same (EventTarget.reg tg ty l) r))
         (EventTarget.registered tbl)).
Proof. reflexivity. Qed.

Lemma remove_all (bound : nat) (evs : list string) :
  forall tbl,
    fold_left
      (fun tbl ev => EventTarget.removeEventListener EventTarget.Window ev (Some bound) tbl)
      evs tbl
    = EventTarget.mk (EventTarget.fresh tbl)
        (filter
           (fun r =>
              negb (existsb
                      (fun ev => EventTarget.same
                                   (EventTarget.reg EventTarget.Window ev bound) r)
                      evs))
           (EventTarget.registered tbl)).
Proof.
  induction evs as [|ev evs IH]; intros tbl; cbn [fold_left existsb].
  - destruct tbl as [f l]. cbn. f_equal. symmetry. apply filter_keeps.
    now apply Forall_forall.
  - rewrite IH, remove_registered. cbn [EventTarget.fresh EventTarget.registered].
    f_equal. rewrite filter_twice. apply filter_ext. intros r.
    now rewrite negb_orb.
Qed.

Lemma remove_none (that : Context.t) (evs : list string) :
  forall tbl,
    fold_left
      (fun tbl ev =>
         EventTarget.removeEventListener (Context.getWindow (Context.element that)) ev
           None tbl)
      evs tbl
    = tbl.
Proof. induction evs as [|ev evs IH]; intros tbl; [reflexivity | apply IH]. Qed.

(** [unlisten] removes from the table the subscriptions of the bound
    listener of the context, and nothing when no listener is bound. *)
Lemma unlisten_filter (that : Context.t) (tbl : EventTarget.t) :
  Context.unlisten that tbl
  = match Context.boundListener that with
    | Some bound =>
        EventTarget.mk (EventTarget.fresh tbl)
          (filter
             (fun r =>
                negb (existsb (fun x => EventTarget.same x r)
                        (Behaviour.subscriptions (Context.element that) bound
                           (Context.windowEvents that))))
             (EventTarget.registered tbl))
    | None => tbl
    end.
Proof.
  unfold Context.unlisten. destruct (Context.boundListener that) as [bound|].
  - unfold Context.getWindow. rewrite remove_all, remove_registered.
    cbn [EventTarget.fresh EventTarget.registered]. f_equal.
    rewrite filter_twice. apply filter_ext. intros r.
    unfold Behaviour.subscriptions. cbn [existsb]. rewrite negb_orb.
    f_equal. f_equal. now rewrite existsb_mapped.
  - cbn [EventTarget.removeEventListener]. apply (remove_none that).
Qed.

End Table.

(** ** Subscribing and unsubscribing *)

Section Subscriptions.

Lemma listen_context (w : option (list string)) (that : Context.t) (tbl : EventTarget.t) :
  fst (Context.listen w that tbl)
  = Context.mk (Context.element that) (Context.event that) (Context.isDoc that)
      (Context.scroll that)
      (match w with Some evs => evs | None => Context.windowEvents that end)
      (Some (EventTarget.fresh tbl)).
Proof. unfold Context.listen. destruct w; reflexivity. Qed.

Lemma listen_table (w : option (list string)) (that : Context.t) (tbl : EventTarget.t) :
  let tbl' := snd (Context.listen w that tbl) in
  let subs :=
    Behaviour.subscriptions (Context.element that) (EventTarget.fresh tbl)
      (match w with Some evs => evs | None => [] end) in
  EventTarget.fresh tbl' = S (EventTarget.fresh tbl)
  /\ (exists added,
         EventTarget.registered tbl' = EventTarget.registered tbl ++ added
         /\ Forall (fun r => In r subs) added)
  /\ (forall r,
         In r (EventTarget.registered tbl') <-> In r (EventTarget.registered tbl) \/ In r subs).
Proof.
  cbv zeta. unfold Context.listen, Behaviour.subscriptions.
  set (b := EventTarget.fresh tbl).
  set (t0 := EventTarget.mk (S b) (EventTarget.registered tbl)).
  set (k := EventTarget.reg (EventTarget.OfNode (Context.element that)) "scroll" b).
  destruct (add_registered (EventTarget.OfNode (Context.element that)) "scroll" b t0)
    as [F1 R1].
  pose proof (add_in (EventTarget.OfNode (Context.element that)) "scroll" b t0) as M1.
  cbn [Context.element] in *. fold k in R1, M1.
  destruct w as [evs|]; cbn [snd].
  - unfold Context.getWindow.
    destruct (add_all b evs
                (EventTarget.addEventListener
                   (EventTarget.OfNode (Context.element that)) "scroll" b t0))
      as (F2 & (added & R2 & A2) & M2).
    split; [rewrite F2, F1; reflexivity|]. split.
    + rewrite R2, R1. cbn [EventTarget.registered t0]. rewrite <- app_assoc.
      eexists. split; [reflexivity|]. apply Forall_app. split.
      * destruct (existsb _ _); constructor; [now left | constructor].
      * eapply Forall_impl; [|exact A2]. intros r (ev & I & ->).
        right. apply in_map_iff. now exists ev.
    + intros r. rewrite M2, M1. cbn [EventTarget.registered t0 In].
      rewrite in_map_iff. split.
      * intros [[H|H]|(ev & I & E)]; auto. right. right. now exists ev.
      * intros [H|[H|(ev & E & I)]]; auto. right. now exists ev.
  - split; [exact F1|]. split.
    + rewrite R1. cbn [EventTarget.registered t0]. eexists. split; [reflexivity|].
      destruct (existsb _ _); constructor; [now left | constructor].
    + intros r. rewrite M1. cbn [EventTarget.registered t0 In map].
      split; [intros [H|H]; auto | intros [H|[H|[]]]; auto].
Qed.

Lemma matched (node : Node) (bound : nat) (evs evs' : list string)
    (r : EventTarget.registration) :
  incl evs evs' ->
  In r (Behaviour.subscriptions node bound evs) ->
  existsb (fun x => EventTarget.same x r) (Behaviour.subscriptions node bound evs') = true.
Proof.
  intros I H. apply existsb_exists. exists r. split; [|apply same_refl].
  destruct H as [H|H]; [now left|]. right.
  apply in_map_iff in H. destruct H as (ev & E & Hev).
  apply in_map_iff. exists ev. auto.
Qed.

Lemma unmatched (node : Node) (bound : nat) (evs : list string)
    (r : EventTarget.registration) :
  EventTarget.listener r <> bound ->
  existsb (fun x => EventTarget.same x r) (Behaviour.subscriptions node bound evs) = false.
Proof.
  intros N. destruct (existsb _ _) eqn:E; [|reflexivity].
  apply existsb_exists in E. destruct E as (x & Hx & S).
  apply same_eq in S. subst x. exfalso. apply N.
  destruct Hx as [<-|Hx]; [reflexivity|].
  apply in_map_iff in Hx. now destruct Hx as (ev & <- & _).
Qed.

(** Unsubscribing right after subscribing gives back the registrations the
    table had, when the table only holds listeners bound earlier. *)
Lemma listen_unlisten_table (w : option (list string)) (that : Context.t)
    (tbl : EventTarget.t) :
  Behaviour.bounded tbl ->
  Context.unlisten (fst (Context.listen w that tbl)) (snd (Context.listen w that tbl))
  = EventTarget.mk (S (EventTarget.fresh tbl)) (EventTarget.registered tbl).
Proof.
  intros B. rewrite unlisten_filter, listen_context.
  cbn [Context.boundListener Context.element Context.windowEvents].
  destruct (listen_table w that tbl) as (F & (added & R & A) & _).
  rewrite F, R, filter_app. f_equal.
  rewrite (filter_drops _ added), app_nil_r.
  - apply filter_keeps. eapply Forall_impl; [|exact B].
    intros r L. cbn beta in *. rewrite unmatched; [reflexivity | lia].
  - eapply Forall_impl; [|exact A]. intros r I. cbn beta.
    rewrite (matched _ _ _ _ r) with (2 := I); [reflexivity|].
    destruct w; [apply incl_refl | intros x []].
Qed.

Lemma listen_bounded (w : option (list string)) (that : Context.t) (tbl : EventTarget.t) :
  Behaviour.bounded tbl -> Behaviour.bounded (snd (Context.listen w that tbl)).
Proof.
  intros B. unfold Behaviour.bounded.
  destruct (listen_table w that tbl) as (F & (added & R & A) & _).
  rewrite F, R. apply Forall_app. split.
  - eapply Forall_impl; [|exact B]. intros r L. cbn beta in *. lia.
  - eapply Forall_impl; [|exact A]. intros r I. cbn beta.
    assert (EventTarget.listener r = EventTarget.fresh tbl) as ->; [|lia].
    destruct I as [<-|I]; [reflexivity|].
    apply in_map_iff in I. now destruct I as (ev & <- & _).
Qed.

Lemma unlisten_frame (c1 c2 : Context.t) (tbl : EventTarget.t) :
  Context.element c1 = Context.element c2 ->
  Context.windowEvents c1 = Context.windowEvents c2 ->
  Context.boundListener c1 = Context.boundListener c2 ->
  Context.unlisten c1 tbl = Context.unlisten c2 tbl.
Proof. intros E W L. rewrite !unlisten_filter, E, W, L. reflexivity. Qed.

End Subscriptions.

(** ** The instance over a sequence of events *)

Section Runs.

Lemma constructor_inversion (dom : Dom.t) (tbl tbl' : EventTarget.t) (element : nat)
    (options : IOptions.t) (this : InView.t) :
  InView.constructor dom tbl element options = (tbl', JS.Normal this) ->
  let listened :=
    Context.listen (Some (Options.windowEvents (InView.withDefaults options)))
      (Context.constructor dom (Behaviour.contextNode options)) tbl in
  InView.validateOptions (InView.withDefaults options) = JS.Normal tt
  /\ tbl' = snd listened
  /\ this = InView.mk (fst listened) (Subject.mk element) (InView.withDefaults options).
Proof.
  unfold InView.constructor, Behaviour.contextNode. cbv zeta.
  destruct (InView.validateOptions (InView.withDefaults options)) as [[]|]; [|discriminate].
  change (Options.context (InView.withDefaults options)) with (IOptions.context options).
  destruct (Context.listen _ _ tbl) as [ctx t]. cbn [fst snd].
  intros H. injection H as <- <-. auto.
Qed.

Lemma onEvent_frame (e : Event) (dom : Dom.t) (this : InView.t) :
  let after := fst (InView.onEvent e dom this) in
  Context.element (InView.context after) = Context.element (InView.context this)
  /\ Context.isDoc (InView.context after) = Context.isDoc (InView.context this)
  /\ Context.windowEvents (InView.context after)
     = Context.windowEvents (InView.context this)
  /\ Context.boundListener (InView.context after)
     = Context.boundListener (InView.context this)
  /\ InView.subject after = InView.subject this
  /\ InView.options after = InView.options this.
Proof. cbv zeta. repeat split. Qed.

Lemma run_frame (events : list (Event * Dom.t)) :
  forall this,
    let final := fst (Behaviour.run events this) in
    Context.element (InView.context final) = Context.element (InView.context this)
    /\ Context.isDoc (InView.context final) = Context.isDoc (InView.context this)
    /\ Context.windowEvents (InView.context final)
       = Context.windowEvents (InView.context this)
    /\ Context.boundListener (InView.context final)
       = Context.boundListener (InView.context this)
    /\ InView.subject final = InView.subject this
    /\ InView.options final = InView.options this.
Proof.
  induction events as [|[e dom] rest IH]; intros this; [cbv zeta; repeat split|].
  cbn [Behaviour.run fst]. cbv zeta in IH |- *.
  destruct (IH (fst (InView.onEvent e dom this))) as (A & B & C & D & E & F).
  destruct (onEvent_frame e dom this) as (A' & B' & C' & D' & E' & F').
  cbv zeta in *.
  repeat split; congruence.
Qed.

Lemma run_calls_cons (e : Event) (dom : Dom.t) (rest : list (Event * Dom.t))
    (this : InView.t) :
  snd (Behaviour.run ((e, dom) :: rest) this)
  = snd (InView.onEvent e dom this)
    ++ snd (Behaviour.run rest (fst (InView.onEvent e dom this))).
Proof. reflexivity. Qed.

End Runs.

Section Gate.

Lemma noise_positive (d : Q) (amount : option JS.number) :
  Spec.noise d amount -> Behaviour.positive amount.
Proof.
  unfold Spec.noise, Behaviour.positive.
  destruct amount as [[|t]|]; cbn; intros [P L]; try contradiction. lra.
Qed.

Lemma noise_compat (d d' : Q) (amount : option JS.number) :
  d == d' -> Spec.noise d amount -> Spec.noise d' amount.
Proof.
  unfold Spec.noise. intros E [P L].
  assert (Qabs d == Qabs d') as A by now rewrite E.
  split; [lra|].
  destruct (JS.toNumber amount) as [|t]; cbn in *; [contradiction | lra].
Qed.

Lemma noise_zero (d : Q) (amount : option JS.number) : d == 0 -> ~ Spec.noise d amount.
Proof.
  intros E [P _]. assert (Qabs d == Qabs 0) as A by now rewrite E.
  cbn in A. lra.
Qed.

Lemma eventsHandler_at_most_once (dom : Dom.t) (this : InView.t) :
  (List.length (InView.eventsHandler dom this) <= 1)%nat.
Proof.
  unfold InView.eventsHandler. destruct (InView.belowScrollAmount this); cbn; lia.
Qed.

Lemma constructor_scroll (dom : Dom.t) (node : Node) :
  Context.scroll (Context.constructor dom node)
  = Scroll.mk (HTMLElement.scrollTop (Context.getElement dom node))
      (HTMLElement.scrollLeft (Context.getElement dom node))
      (HTMLElement.scrollTop (Context.getElement dom node) - 0)
      (HTMLElement.scrollLeft (Context.getElement dom node) - 0)
      (Scroll.dirY (Context.scroll (Context.constructor dom node)))
      (Scroll.dirX (Context.scroll (Context.constructor dom node))).
Proof. reflexivity. Qed.

Lemma onEvent_scroll (e : Event) (dom : Dom.t) (this : InView.t) :
  let host := Context.getElement dom (Context.element (InView.context this)) in
  let after := InView.context (fst (InView.onEvent e dom this)) in
  Context.scrollTop after = HTMLElement.scrollTop host
  /\ Context.scrollLeft after = HTMLElement.scrollLeft host
  /\ Context.scrollTopDiff after
     = HTMLElement.scrollTop host - Context.scrollTop (InView.context this)
  /\ Context.scrollLeftDiff after
     = HTMLElement.scrollLeft host - Context.scrollLeft (InView.context this).
Proof. cbv zeta. repeat split. Qed.

End Gate.

(** ** Properties of the subscriptions *)

(** X1: once an instance has been constructed on a table that only holds
    listeners bound earlier, [stop], called after any sequence of events,
    leaves in the table exactly the registrations it held before the
    construction. *)
Theorem stop_restores_the_table (dom : Dom.t) (tbl tbl' : EventTarget.t) (element : nat)
    (options : IOptions.t) (this : InView.t) (events : list (Event * Dom.t)) :
  Behaviour.bounded tbl ->
  InView.constructor dom tbl element options = (tbl', JS.Normal this) ->
  EventTarget.registered (InView.stop (fst (Behaviour.run events this)) tbl')
  = EventTarget.registered tbl.
Proof.
  intros B H. apply constructor_inversion in H. cbv zeta in H.
  destruct H as (_ & -> & ->).
  destruct (run_frame events
              (InView.mk
                 (fst (Context.listen
                         (Some (Options.windowEvents (InView.withDefaults options)))
                         (Context.constructor dom (Behaviour.contextNode options)) tbl))
                 (Subject.mk element) (InView.withDefaults options)))
    as (E & _ & W & L & _).
  cbv zeta in E, W, L. cbn [InView.context] in E, W, L.
  unfold InView.stop. rewrite (unlisten_frame _ _ _ E W L).
  rewrite listen_unlisten_table by exact B. reflexivity.
Qed.

Lemma stop_restores_witness :
  exists tbl this,
    InView.constructor (Sample.scrolled 0 0) Scenario.busy 1 IOptions.empty
    = (tbl, JS.Normal this)
    /\ List.length (EventTarget.registered tbl) = 5%nat
    /\ EventTarget.registered (InView.stop (fst (Behaviour.run Scenario.session this)) tbl)
       = EventTarget.registered Scenario.busy.
Proof.
  eexists. eexists. split; [reflexivity|]. split; [reflexivity|].
  eapply (stop_restores_the_table (Sample.scrolled 0 0) Scenario.busy _ 1%nat
            IOptions.empty _ Scenario.session).
  - repeat constructor.
  - reflexivity.
Defined.

(** X2: a successful construction binds one new listener and appends its
    registrations to the table: the scroll event of the context node (the
    document unless [options.context] is given) and the window events of the
    options, [DOMContentLoaded] and [resize] by default; nothing else is
    added and nothing is removed. *)
Theorem constructor_subscribes (dom : Dom.t) (tbl tbl' : EventTarget.t) (element : nat)
    (options : IOptions.t) (this : InView.t) :
  InView.constructor dom tbl element options = (tbl', JS.Normal this) ->
  let subs :=
    Behaviour.subscriptions (Behaviour.contextNode options) (EventTarget.fresh tbl)
      (match IOptions.windowEvents options with
       | Some evs => evs
       | None => ["DOMContentLoaded"; "resize"]%string
       end) in
  Context.boundListener (InView.context this) = Some (EventTarget.fresh tbl)
  /\ Context.element (InView.context this) = Behaviour.contextNode options
  /\ EventTarget.fresh tbl' = S (EventTarget.fresh tbl)
  /\ (exists added,
         EventTarget.registered tbl' = EventTarget.registered tbl ++ added
         /\ Forall (fun r => In r subs) added)
  /\ (forall r,
         In r (EventTarget.registered tbl') <-> In r (EventTarget.registered tbl) \/ In r subs).
Proof.
  intros H subs. apply constructor_inversion in H. cbv zeta in H.
  destruct H as (_ & -> & ->). cbn [InView.context].
  rewrite listen_context. cbn [Context.boundListener Context.element].
  split; [reflexivity|]. split; [reflexivity|].
  apply (listen_table (Some (Options.windowEvents (InView.withDefaults options)))
           (Context.constructor dom (Behaviour.contextNode options)) tbl).
Qed.

Lemma constructor_subscribes_witness :
  exists tbl this,
    InView.constructor (Sample.scrolled 0 0) Scenario.busy 1 Scenario.inElement
    = (tbl, JS.Normal this)
    /\ In (EventTarget.reg (EventTarget.OfNode (Element 7)) "scroll" 3)
         (EventTarget.registered tbl).
Proof.
  eexists. eexists. split; [reflexivity|].
  apply (proj2 (proj2 (proj2 (proj2
           (constructor_subscribes (Sample.scrolled 0 0) Scenario.busy _ 1%nat
              Scenario.inElement _ eq_refl))))).
  right. left. reflexivity.
Defined.

(** X3: calling [listen] a second time without [unlisten] in between loses
    the first bound listener: [unlisten] then removes the registrations of
    the second call only, and those of the first call, its scroll
    registration among them, stay in the table. *)
Theorem second_listen_leaks_the_first (w1 w2 : option (list string)) (that : Context.t)
    (tbl : EventTarget.t) :
  Behaviour.bounded tbl ->
  let first := Context.listen w1 that tbl in
  let second := Context.listen w2 (fst first) (snd first) in
  EventTarget.registered (Context.unlisten (fst second) (snd second))
  = EventTarget.registered (snd first)
  /\ In (EventTarget.reg (EventTarget.OfNode (Context.element that)) "scroll"
           (EventTarget.fresh tbl))
        (EventTarget.registered (Context.unlisten (fst second) (snd second))).
Proof.
  intros B first second.
  assert (EventTarget.registered (Context.unlisten (fst second) (snd second))
          = EventTarget.registered (snd first)) as E.
  { unfold second. rewrite listen_unlisten_table; [reflexivity|].
    now apply listen_bounded. }
  split; [exact E|]. rewrite E.
  apply (proj2 (proj2 (listen_table w1 that tbl))). right. now left.
Qed.

Lemma second_listen_witness :
  EventTarget.registered
    (Context.unlisten
       (fst (Context.listen None
               (fst (Context.listen None (Context.constructor (Sample.scrolled 0 0) Document)
                       EventTarget.empty))
               (snd (Context.listen None (Context.constructor (Sample.scrolled 0 0) Document)
                       EventTarget.empty))))
       (snd (Context.listen None
               (fst (Context.listen None (Context.constructor (Sample.scrolled 0 0) Document)
                       EventTarget.empty))
               (snd (Context.listen None (Context.constructor (Sample.scrolled 0 0) Document)
                       EventTarget.empty)))))
  = [EventTarget.reg (EventTarget.OfNode Document) "scroll" 0].
Proof.
  refine (eq_trans
            (proj1 (second_listen_leaks_the_first None None
                      (Context.constructor (Sample.scrolled 0 0) Document)
                      EventTarget.empty _)) _).
  - constructor.
  - reflexivity.
Defined.

(** X4: [stop] only removes registrations of the listener bound by its own
    context, never adds one, and calling it again changes nothing. *)
Theorem stop_is_selective_and_idempotent (this : InView.t) (tbl : EventTarget.t) :
  InView.stop this (InView.stop this tbl) = InView.stop this tbl
  /\ (forall r,
         In r (EventTarget.registered (InView.stop this tbl)) ->
         In r (EventTarget.registered tbl))
  /\ (forall r,
         In r (EventTarget.registered tbl) ->
         Some (EventTarget.listener r) <> Context.boundListener (InView.context this) ->
         In r (EventTarget.registered (InView.stop this tbl))).
Proof.
  unfold InView.stop. rewrite !unlisten_filter.
  destruct (Context.boundListener (InView.context this)) as [bound|].
  - cbn [EventTarget.fresh EventTarget.registered]. split; [|split].
    + f_equal. rewrite filter_twice. apply filter_ext. intros r. apply andb_diag.
    + intros r H. apply filter_In in H. tauto.
    + intros r H N. apply filter_In. split; [exact H|].
      rewrite unmatched; [reflexivity | congruence].
  - repeat split; auto.
Qed.

Lemma stop_selective_witness :
  In (EventTarget.reg EventTarget.Window "resize" 1)
     (EventTarget.registered (InView.stop (Sample.inView Sample.still IOffset.empty parent None)
                                Scenario.busy)).
Proof.
  apply (proj2 (proj2 (stop_is_selective_and_idempotent
                         (Sample.inView Sample.still IOffset.empty parent None)
                         Scenario.busy))).
  - left. reflexivity.
  - discriminate.
Defined.

(** ** Properties of the events *)

Section Counting.

Lemma not_insignificant (this : InView.t) :
  ~ Behaviour.positive (IScrollAmount.top (InView.scrollAmount (InView.options this))) ->
  ~ Behaviour.positive (IScrollAmount.left (InView.scrollAmount (InView.options this))) ->
  ~ Spec.insignificant this.
Proof.
  intros T L [H|H]; apply noise_positive in H; contradiction.
Qed.

Lemma run_at_most (events : list (Event * Dom.t)) :
  forall this, (List.length (snd (Behaviour.run events this)) <= List.length events)%nat.
Proof.
  induction events as [|[e dom] rest IH]; intros this; [cbn; lia|].
  rewrite run_calls_cons, length_app, onEvent_calls. cbn [List.length].
  pose proof (eventsHandler_at_most_once dom (fst (InView.onEvent e dom this))).
  specialize (IH (fst (InView.onEvent e dom this))). lia.
Qed.

Lemma run_exactly (events : list (Event * Dom.t)) :
  forall this,
    ~ Behaviour.positive (IScrollAmount.top (InView.scrollAmount (InView.options this))) ->
    ~ Behaviour.positive (IScrollAmount.left (InView.scrollAmount (InView.options this))) ->
    List.length (snd (Behaviour.run events this)) = List.length events.
Proof.
  induction events as [|[e dom] rest IH]; intros this T L; [reflexivity|].
  rewrite run_calls_cons, length_app, onEvent_calls. cbn [List.length].
  rewrite (eventsHandler_fires dom (fst (InView.onEvent e dom this))).
  - cbn [List.length]. rewrite IH; [reflexivity | exact T | exact L].
  - apply not_insignificant; assumption.
Qed.


End Counting.

(** X5: an event invokes the callback at most once, so a sequence of events
    makes at most as many calls as it has events; when neither
    [scrollAmount.top] nor [scrollAmount.left] is a positive number (as with
    the default options) every event invokes it exactly once. *)
Theorem calls_per_event :
  (forall events this,
      (List.length (snd (Behaviour.run events this)) <= List.length events)%nat)
  /\ (forall events this,
         ~ Behaviour.positive
             (IScrollAmount.top (InView.scrollAmount (InView.options this))) ->
         ~ Behaviour.positive
             (IScrollAmount.left (InView.scrollAmount (InView.options this))) ->
         List.length (snd (Behaviour.run events this)) = List.length events)
  /\ (forall events this,
         Options.scrollAmount (InView.options this) = None ->
         List.length (snd (Behaviour.run events this)) = List.length events).
Proof.
  split; [|split].
  - intros events this. apply run_at_most.
  - intros events this. apply run_exactly.
  - intros events this H. apply run_exactly; unfold InView.scrollAmount; rewrite H;
      cbn; apply Qlt_irrefl.
Qed.

Lemma calls_per_event_witness :
  List.length (snd (Behaviour.run Scenario.session Sample.plain)) = 3%nat
  /\ (List.length (snd (Behaviour.run Scenario.session Sample.gated)) <= 3)%nat.
Proof.
  split.
  - apply (proj2 (proj2 calls_per_event) Scenario.session Sample.plain). reflexivity.
  - apply (proj1 calls_per_event Scenario.session Sample.gated).
Defined.

(** X6: an event that finds the host at the scroll offsets of the snapshot
    (a resize, or a second event at the same position) stores the direction
    [DIR_NONE] on both axes and always invokes the callback exactly once,
    whatever [scrollAmount] is. *)
Theorem unscrolled_event_fires (e : Event) (dom : Dom.t) (this : InView.t) :
  let host := Context.getElement dom (Context.element (InView.context this)) in
  HTMLElement.scrollTop host == Context.scrollTop (InView.context this) ->
  HTMLElement.scrollLeft host == Context.scrollLeft (InView.context this) ->
  Context.scrollDirY (InView.context (fst (InView.onEvent e dom this))) = Context.DIR_NONE
  /\ Context.scrollDirX (InView.context (fst (InView.onEvent e dom this)))
     = Context.DIR_NONE
  /\ exists v, snd (InView.onEvent e dom this) = [v].
Proof.
  intros host T L.
  destruct (populateScroll_consistent dom
              (Context.mk (Context.element (InView.context this)) (Some e)
                 (Context.isDoc (InView.context this))
                 (Context.scroll (InView.context this))
                 (Context.windowEvents (InView.context this))
                 (Context.boundListener (InView.context this))))
    as (Y & _ & _ & X & _).
  rewrite <- onEvent_context in Y, X.
  destruct (onEvent_scroll e dom this) as (_ & _ & C & D). cbv zeta in C, D.
  fold host in C, D.
  split; [|split].
  - apply Y. fold (Context.scrollTopDiff (InView.context (fst (InView.onEvent e dom this)))).
    rewrite C. lra.
  - apply X. fold (Context.scrollLeftDiff (InView.context (fst (InView.onEvent e dom this)))).
    rewrite D. lra.
  - rewrite onEvent_calls. eexists. apply eventsHandler_fires.
    intros [H|H]; revert H; apply noise_zero.
    + rewrite C. lra.
    + rewrite D. lra.
Qed.

Lemma unscrolled_event_witness :
  snd (InView.onEvent "scroll"%string (Sample.scrolled 3 0) Sample.gated) = []
  /\ exists v,
       snd (InView.onEvent "resize"%string (Sample.scrolled 3 0)
              (fst (InView.onEvent "scroll"%string (Sample.scrolled 3 0) Sample.gated)))
       = [v].
Proof.
  split; [reflexivity|].
  apply (unscrolled_event_fires "resize"%string (Sample.scrolled 3 0)
           (fst (InView.onEvent "scroll"%string (Sample.scrolled 3 0) Sample.gated)));
    reflexivity.
Defined.

(** X7: the constructor takes its first snapshot against the offsets
    [(0, 0)]: on a host that is already scrolled the stored deltas are the
    scroll offsets themselves, and when one of them is within
    [scrollAmount] a [recalculate] made before any event does not invoke
    the callback. *)
Theorem construction_on_scrolled_host (dom : Dom.t) (tbl tbl' : EventTarget.t)
    (element : nat) (options : IOptions.t) (this : InView.t) :
  InView.constructor dom tbl element options = (tbl', JS.Normal this) ->
  let host := Context.getElement dom (Behaviour.contextNode options) in
  let amount := InView.scrollAmount (InView.options this) in
  Context.scrollTop (InView.context this) = HTMLElement.scrollTop host
  /\ Context.scrollLeft (InView.context this) = HTMLElement.scrollLeft host
  /\ Context.scrollTopDiff (InView.context this) == HTMLElement.scrollTop host
  /\ Context.scrollLeftDiff (InView.context this) == HTMLElement.scrollLeft host
  /\ (Spec.noise (HTMLElement.scrollTop host) (IScrollAmount.top amount)
      \/ Spec.noise (HTMLElement.scrollLeft host) (IScrollAmount.left amount) ->
      forall dom', InView.recalculate dom' this = []).
Proof.
  intros H host amount. apply constructor_inversion in H. cbv zeta in H.
  destruct H as (_ & _ & ->).
  unfold Context.scrollTop, Context.scrollLeft, Context.scrollTopDiff,
    Context.scrollLeftDiff. cbn [InView.context].
  assert (Context.scrollTopDiff
            (fst (Context.listen
                    (Some (Options.windowEvents (InView.withDefaults options)))
                    (Context.constructor dom (Behaviour.contextNode options)) tbl))
          == HTMLElement.scrollTop host) as DT.
  { unfold Context.scrollTopDiff. rewrite listen_scroll, constructor_scroll.
    cbn [Scroll.topDiff]. fold host. ring. }
  assert (Context.scrollLeftDiff
            (fst (Context.listen
                    (Some (Options.windowEvents (InView.withDefaults options)))
                    (Context.constructor dom (Behaviour.contextNode options)) tbl))
          == HTMLElement.scrollLeft host) as DL.
  { unfold Context.scrollLeftDiff. rewrite listen_scroll, constructor_scroll.
    cbn [Scroll.leftDiff]. fold host. ring. }
  rewrite listen_scroll, constructor_scroll.
  cbn [Scroll.top Scroll.left Scroll.topDiff Scroll.leftDiff]. fold host.
  split; [reflexivity|]. split; [reflexivity|].
  split; [ring|]. split; [ring|].
  intros N dom'. apply eventsHandler_suppressed. unfold Spec.insignificant.
  cbn [InView.context InView.options]. fold amount.
  destruct N as [N|N]; [left | right].
  - apply (noise_compat (HTMLElement.scrollTop host)); [now symmetry | exact N].
  - apply (noise_compat (HTMLElement.scrollLeft host)); [now symmetry | exact N].
Qed.

Lemma construction_on_scrolled_host_witness :
  exists tbl this,
    InView.constructor (Sample.scrolled 3 0) EventTarget.empty 1 Scenario.gatedBag
    = (tbl, JS.Normal this)
    /\ InView.recalculate (Sample.scrolled 3 0) this = [].
Proof.
  eexists. eexists. split; [reflexivity|].
  eapply (proj2 (proj2 (proj2 (proj2
            (construction_on_scrolled_host (Sample.scrolled 3 0) EventTarget.empty _ 1%nat
               Scenario.gatedBag _ eq_refl))))).
  left. vm_compute. split; [reflexivity | discriminate].
Defined.


(** ** Properties of the visibility record *)

Section Overlap.

Lemma visible_of_rationals (pT pL pB pR cT cL cB cR : Q) :
  let p := Box.mk (JS.Num pT) (JS.Num pL) (JS.Num pB) (JS.Num pR) in
  let c := Box.mk (JS.Num cT) (JS.Num cL) (JS.Num cB) (JS.Num cR) in
  IVisibility.visible (InView.visibility p c) = true
  <-> ((pT <= cT /\ cT < pB) \/ (pT <= cB /\ cB < pB) \/ (cT <= pT /\ pB <= cB))
      /\ ((pL <= cL /\ cL < pR) \/ (pL <= cR /\ cR <= pR) \/ (cL <= pL /\ pR <= cR)).
Proof.
  cbv zeta. cbn [InView.visibility IVisibility.visible].
  rewrite andb_true_iff, !orb_true_iff.
  rewrite topVisible_iff, bottomVisible_iff, leftVisible_iff, rightVisible_iff,
    overflowY_iff, overflowX_iff.
  unfold Spec.within, Spec.withinClosed, Spec.covers.
  cbn [Box.top Box.left Box.bottom Box.right JS.Le JS.Lt]. tauto.
Qed.

Lemma overlap_of_rationals (pT pL pB pR cT cL cB cR : Q) :
  pT < pB -> pL < pR -> cT <= cB -> cL <= cR ->
  (((pT <= cT /\ cT < pB) \/ (pT <= cB /\ cB < pB) \/ (cT <= pT /\ pB <= cB))
   /\ ((pL <= cL /\ cL < pR) \/ (pL <= cR /\ cR <= pR) \/ (cL <= pL /\ pR <= cR)))
  <-> (pT <= cB /\ cT < pB) /\ (pL <= cR /\ (cL < pR \/ cR <= pR)).
Proof.
  intros HP1 HP2 HC1 HC2. split.
  - intros [Y X]. split.
    + destruct Y as [[? ?]|[[? ?]|[? ?]]]; split; lra.
    + destruct X as [[? ?]|[[? ?]|[? ?]]]; (split; [lra|]); (left; lra) || (right; lra).
  - intros [[Y1 Y2] [X1 X2]]. split.
    + destruct (Qlt_le_dec cT pT); [|left; lra].
      destruct (Qlt_le_dec cB pB); [right; left; lra | right; right; lra].
    + destruct (Qlt_le_dec cR pR) as [?|?]; [|destruct (Qlt_le_dec pR cR)].
      * right. left. lra.
      * destruct X2 as [X2|X2]; [|lra].
        destruct (Qlt_le_dec cL pL); [right; right; lra | left; lra].
      * right. left. lra.
Qed.

Lemma parentBox_numbers (dom : Dom.t) (this : InView.t) :
  InView.parentBox dom this
  = Box.mk (JS.Num (Context.top dom (InView.context this)))
      (JS.Num (Context.left dom (InView.context this)))
      (JS.Num (Context.top dom (InView.context this)
               + inject_Z (Z.of_N (Context.innerHeight dom (InView.context this)))))
      (JS.Num (Context.left dom (InView.context this)
               + inject_Z (Z.of_N (Context.innerWidth dom (InView.context this))))).
Proof. reflexivity. Qed.

Lemma positive_N (n : N) : (0 < n)%N -> 0 < inject_Z (Z.of_N n).
Proof. intros H. unfold Qlt; cbn. lia. Qed.

Lemma visibility_flags (p c : Box.t) :
  let v := InView.visibility p c in
  (Behaviour.someQuadrant v = true -> IVisibility.visible v = true)
  /\ (IVisibility.visible v = true ->
      Behaviour.someQuadrant v = true
      \/ InView.overflowY p c = true \/ InView.overflowX p c = true).
Proof.
  cbv zeta. unfold Behaviour.someQuadrant, InView.visibility.
  cbn [IVisibility.visible IVisibility.topLeft IVisibility.topRight
       IVisibility.bottomLeft IVisibility.bottomRight].
  destruct (InView.topVisible p c), (InView.bottomVisible p c),
    (InView.leftVisible p c), (InView.rightVisible p c),
    (InView.overflowY p c), (InView.overflowX p c); cbn; auto.
Qed.

End Overlap.

(** X9: for a context with a client box of positive height and width and a
    subject whose effective box is ordered (top not below bottom, left not
    right of right), [visible] holds exactly when the two boxes meet: the
    child reaches down to the top of the parent and starts above its
    bottom, reaches the left of the parent and starts left of its right
    border or ends on or before it. *)
Theorem visible_iff_boxes_meet (dom : Dom.t) (this : InView.t) :
  let p := InView.parentBox dom this in
  let c := InView.childBox dom this in
  (0 < Context.innerHeight dom (InView.context this))%N ->
  (0 < Context.innerWidth dom (InView.context this))%N ->
  Behaviour.ordered c ->
  IVisibility.visible (InView.visibility p c) = true
  <-> (JS.Le (Box.top p) (Box.bottom c) /\ JS.Lt (Box.top c) (Box.bottom p))
      /\ (JS.Le (Box.left p) (Box.right c)
          /\ (JS.Lt (Box.left c) (Box.right p) \/ JS.Le (Box.right c) (Box.right p))).
Proof.
  intros p c Hh Hw [OY OX]. subst p. rewrite parentBox_numbers.
  apply positive_N in Hh, Hw.
  destruct c as [[|cT] [|cL] [|cB] [|cR]];
    cbn [Box.top Box.left Box.bottom Box.right JS.Le] in OY, OX; try contradiction.
  rewrite visible_of_rationals.
  cbn [Box.top Box.left Box.bottom Box.right JS.Le JS.Lt].
  apply overlap_of_rationals; lra.
Qed.

Lemma visible_iff_boxes_meet_witness :
  IVisibility.visible
    (InView.visibility (InView.parentBox (Sample.page 490 (-30) 20 700) Sample.plain)
       (InView.childBox (Sample.page 490 (-30) 20 700) Sample.plain)) = true
  /\ IVisibility.visible
       (InView.visibility (InView.parentBox (Sample.page 500 0 20 700) Sample.plain)
          (InView.childBox (Sample.page 500 0 20 700) Sample.plain)) = false.
Proof.
  split.
  - apply (visible_iff_boxes_meet (Sample.page 490 (-30) 20 700) Sample.plain).
    + reflexivity.
    + reflexivity.
    + vm_compute. split; discriminate.
    + vm_compute. split; [split; [discriminate | reflexivity]|].
      split; [discriminate | left; reflexivity].
  - apply not_true_false.
    rewrite (visible_iff_boxes_meet (Sample.page 500 0 20 700) Sample.plain).
    + vm_compute. intros [[_ H] _]. discriminate H.
    + reflexivity.
    + reflexivity.
    + vm_compute. split; discriminate.
Defined.

(** X10: in every record handed to the callback a set quadrant flag implies
    [visible], and a visible subject with no quadrant flag overflows the
    context on one axis at least. *)
Theorem quadrants_and_overflow (dom : Dom.t) (this : InView.t) (v : IVisibility.t) :
  In v (InView.eventsHandler dom this) ->
  (Behaviour.someQuadrant v = true -> IVisibility.visible v = true)
  /\ (IVisibility.visible v = true ->
      Behaviour.someQuadrant v = true
      \/ InView.overflowY (InView.parentBox dom this) (InView.childBox dom this) = true
      \/ InView.overflowX (InView.parentBox dom this) (InView.childBox dom this) = true).
Proof.
  unfold InView.eventsHandler. destruct (InView.belowScrollAmount this); [intros []|].
  intros [<-|[]]. apply visibility_flags.
Qed.

Lemma quadrants_and_overflow_witness :
  In (IVisibility.mk true false true false false)
     (InView.eventsHandler (Sample.page 100 (-10) 300 600) Sample.plain)
  /\ IVisibility.visible (IVisibility.mk true false true false false) = true.
Proof.
  split; [left; reflexivity|].
  apply (proj1 (quadrants_and_overflow (Sample.page 100 (-10) 300 600) Sample.plain
                  (IVisibility.mk true false true false false)
                  (or_introl eq_refl))).
  reflexivity.
Defined.

(** ** Properties of the offsets *)

Section Shift.





End Shift.







(** ** Properties of the construction *)

Section Construction.

Lemma validateValues_decides (vs : list TOffset) :
  (Exists Spec.malformed vs
   /\ InView.validateValues vs = JS.Throw (JS.TypeError InView.message))
  \/ (~ Exists Spec.malformed vs /\ InView.validateValues vs = JS.Normal tt).
Proof.
  induction vs as [|v vs IH].
  - right. split; [intros H; inversion H | reflexivity].
  - assert (Spec.malformed v -> Exists Spec.malformed (v :: vs)) as Here
      by (intros M; now constructor).
    destruct IH as [[E T]|[NE T]].
    + left. split; [now apply Exists_cons_tl|].
      apply validateValues_throws. now apply Exists_cons_tl.
    + destruct v as [n|s|f].
      * right. split; [|exact T]. intros H. inversion H as [? ? M|]; auto.
      * cbn [InView.validateValues].
        destruct (JS.lastIndexOf s "%" =? JS.length s - 1)%Z eqn:Test.
        -- right. split; [|exact T]. intros H.
           inversion H as [? ? M|]; [|auto].
           destruct M as [M1 M2]. apply percentage_test in Test. tauto.
        -- left. split; [|reflexivity]. apply Here. split.
           ++ intros ->. discriminate Test.
           ++ intros P. assert ((JS.lastIndexOf s "%" =? JS.length s - 1)%Z = true)
                as Yes by (apply percentage_test; now right).
              congruence.
      * right. split; [|exact T]. intros H. inversion H as [? ? M|]; auto.
Qed.

Lemma constructed_context (dom : Dom.t) (tbl tbl' : EventTarget.t) (element : nat)
    (options : IOptions.t) (this : InView.t) (events : list (Event * Dom.t)) :
  InView.constructor dom tbl element options = (tbl', JS.Normal this) ->
  let final := fst (Behaviour.run events this) in
  Context.element (InView.context final) = Behaviour.contextNode options
  /\ Context.isDoc (InView.context final)
     = match IOptions.context options with Some _ => false | None => true end.
Proof.
  intros H final. apply constructor_inversion in H. cbv zeta in H.
  destruct H as (_ & _ & ->).
  destruct (run_frame events
              (InView.mk
                 (fst (Context.listen
                         (Some (Options.windowEvents (InView.withDefaults options)))
                         (Context.constructor dom (Behaviour.contextNode options)) tbl))
                 (Subject.mk element) (InView.withDefaults options)))
    as (E & D & _).
  cbv zeta in E, D. cbn [InView.context] in E, D. fold final in E, D.
  rewrite E, D, listen_context. cbn [Context.element Context.isDoc].
  unfold Behaviour.contextNode. destruct (IOptions.context options); split; reflexivity.
Qed.

End Construction.

(** X14: the constructor throws its [TypeError], leaving the table
    untouched, exactly when some string offset is not empty and does not
    end in ['%']; in every other case (numbers, functions, percentages, the
    empty string, no offset at all) it returns an instance. *)
Theorem construction_throws_iff_malformed (dom : Dom.t) (tbl : EventTarget.t)
    (element : nat) (options : IOptions.t) :
  let vs := IOffset.values (Options.offset (InView.withDefaults options)) in
  (Exists Spec.malformed vs
   <-> InView.constructor dom tbl element options
       = (tbl, JS.Throw (JS.TypeError InView.message)))
  /\ (~ Exists Spec.malformed vs
      <-> exists tbl' this,
            InView.constructor dom tbl element options = (tbl', JS.Normal this)).
Proof.
  intros vs. unfold InView.constructor, InView.validateOptions. fold vs.
  destruct (validateValues_decides vs) as [[E T]|[NE T]]; rewrite T.
  - split; split; auto.
    + intros N. contradiction.
    + intros (tbl' & this & H). discriminate H.
  - destruct (Context.listen _ _ tbl) as [ctx t]. split; split; auto.
    + intros N. contradiction.
    + intros H. discriminate H.
    + intros _. eauto.
Qed.

Lemma construction_throws_witness :
  InView.constructor Sample.halfPage Scenario.busy 1 (Sample.bag (OfString "50px"))
  = (Scenario.busy, JS.Throw (JS.TypeError InView.message)).
Proof.
  apply (proj1 (construction_throws_iff_malformed Sample.halfPage Scenario.busy 1%nat
                  (Sample.bag (OfString "50px")))).
  left. split; discriminate.
Defined.

(** X15: an instance constructed without [options.context] measures the
    subject, after any sequence of events, against the box
    [(0, 0, clientWidth, clientHeight)] of the root element; one
    constructed with a context element measures it against the bounding
    rectangle corner of that element, extended by its client width and
    height. *)
Theorem constructed_parent_box (dom : Dom.t) (tbl tbl' : EventTarget.t) (element : nat)
    (options : IOptions.t) (this : InView.t) (events : list (Event * Dom.t))
    (dom' : Dom.t) :
  InView.constructor dom tbl element options = (tbl', JS.Normal this) ->
  let p := InView.parentBox dom' (fst (Behaviour.run events this)) in
  match IOptions.context options with
  | None =>
      JS.Eq (Box.top p) (JS.ofZ 0)
      /\ JS.Eq (Box.left p) (JS.ofZ 0)
      /\ JS.Eq (Box.bottom p)
           (JS.ofZ (Z.of_N (HTMLElement.clientHeight (Dom.documentElement dom'))))
      /\ JS.Eq (Box.right p)
           (JS.ofZ (Z.of_N (HTMLElement.clientWidth (Dom.documentElement dom'))))
  | Some c =>
      let host := Dom.element dom' c in
      let rect := HTMLElement.getBoundingClientRect host in
      p = Box.mk (JS.Num (DOMRect.top rect)) (JS.Num (DOMRect.left rect))
            (JS.Num (DOMRect.top rect + inject_Z (Z.of_N (HTMLElement.clientHeight host))))
            (JS.Num (DOMRect.left rect + inject_Z (Z.of_N (HTMLElement.clientWidth host))))
  end.
Proof.
  intros H p.
  destruct (constructed_context dom tbl tbl' element options this events H) as [E D].
  cbv zeta in E, D. subst p. rewrite parentBox_numbers.
  unfold Context.top, Context.left, Context.innerHeight, Context.innerWidth,
    Context.getRect.
  rewrite E, D. unfold Behaviour.contextNode.
  destruct (IOptions.context options) as [c|]; cbn [Context.getElement].
  - reflexivity.
  - cbn [Box.top Box.left Box.bottom Box.right JS.Eq JS.ofZ].
    repeat split; try reflexivity; ring.
Qed.

Lemma constructed_parent_box_witness :
  exists tbl this,
    InView.constructor (Sample.scrolled 0 0) EventTarget.empty 1 IOptions.empty
    = (tbl, JS.Normal this)
    /\ JS.Eq (Box.bottom (InView.parentBox (Sample.scrolled 40 0)
                            (fst (Behaviour.run Scenario.session this))))
         (JS.ofZ 500).
Proof.
  eexists. eexists. split; [reflexivity|].
  eapply (proj1 (proj2 (proj2
            (constructed_parent_box (Sample.scrolled 0 0) EventTarget.empty _ 1%nat
               IOptions.empty _ Scenario.session (Sample.scrolled 40 0) eq_refl)))).
Defined.

(** ** Properties of the subject *)

Lemma empty_margins (h : Q) :
  JS.Eq (JS.add (JS.add (JS.Num h) (JS.parseInt (Subject.orZero EmptyString)))
           (JS.parseInt (Subject.orZero EmptyString)))
        (JS.Num h).
Proof.
  change (JS.parseInt (Subject.orZero EmptyString)) with (JS.ofZ 0).
  unfold JS.add, JS.ofZ. cbn [JS.lift2 JS.Eq]. change (inject_Z 0) with 0. ring.
Qed.

(** X16: [height] and [width] without margins are those of the bounding
    rectangle.  With margins, each margin that [parseInt] reads is added;
    empty margins count as [0], so that the result is the one without
    margins; a margin that does not start with an integer (such as [auto])
    makes the result [NaN]. *)
Theorem dimensions_with_margins (dom : Dom.t) (that : Subject.t) :
  let el := Dom.element dom (Subject.element that) in
  let rect := HTMLElement.getBoundingClientRect el in
  Subject.height dom that false = JS.Num (DOMRect.height rect)
  /\ Subject.width dom that false = JS.Num (DOMRect.width rect)
  /\ (forall a b,
         JS.parseInt (Subject.orZero (HTMLElement.marginTop el)) = JS.ofZ a ->
         JS.parseInt (Subject.orZero (HTMLElement.marginBottom el)) = JS.ofZ b ->
         Subject.height dom that true
         = JS.Num (DOMRect.height rect + inject_Z a + inject_Z b))
  /\ (forall a b,
         JS.parseInt (Subject.orZero (HTMLElement.marginLeft el)) = JS.ofZ a ->
         JS.parseInt (Subject.orZero (HTMLElement.marginRight el)) = JS.ofZ b ->
         Subject.width dom that true
         = JS.Num (DOMRect.width rect + inject_Z a + inject_Z b))
  /\ (HTMLElement.marginTop el = EmptyString ->
      HTMLElement.marginBottom el = EmptyString ->
      JS.Eq (Subject.height dom that true) (Subject.height dom that false))
  /\ (HTMLElement.marginLeft el = EmptyString ->
      HTMLElement.marginRight el = EmptyString ->
      JS.Eq (Subject.width dom that true) (Subject.width dom that false))
  /\ (JS.parseInt (Subject.orZero (HTMLElement.marginTop el)) = JS.NaN
      \/ JS.parseInt (Subject.orZero (HTMLElement.marginBottom el)) = JS.NaN ->
      Subject.height dom that true = JS.NaN)
  /\ (JS.parseInt (Subject.orZero (HTMLElement.marginLeft el)) = JS.NaN
      \/ JS.parseInt (Subject.orZero (HTMLElement.marginRight el)) = JS.NaN ->
      Subject.width dom that true = JS.NaN).
Proof.
  cbv zeta. unfold Subject.height, Subject.width, Subject.getRect.
  split; [reflexivity|]. split; [reflexivity|].
  split; [intros a b -> ->; reflexivity|].
  split; [intros a b -> ->; reflexivity|].
  split; [intros -> ->; apply empty_margins|].
  split; [intros -> ->; apply empty_margins|].
  split.
  - intros [-> | ->]; [reflexivity|].
    destruct (JS.parseInt (Subject.orZero _)); reflexivity.
  - intros [-> | ->]; [reflexivity|].
    destruct (JS.parseInt (Subject.orZero _)); reflexivity.
Qed.

Lemma dimensions_with_margins_witness :
  Subject.height Scenario.margined (Subject.mk 1) true = JS.Num (20 + 10 + 0)
  /\ Subject.width Scenario.margined (Subject.mk 1) true = JS.NaN.
Proof.
  split.
  - apply (proj1 (proj2 (proj2 (dimensions_with_margins Scenario.margined (Subject.mk 1))))
             10%Z 0%Z eq_refl eq_refl).
  - apply (proj2 (proj2 (proj2 (proj2 (proj2 (proj2 (proj2
             (dimensions_with_margins Scenario.margined (Subject.mk 1))))))))).
    left. reflexivity.
Defined.

(** ** Inside and outside *)

Section Places.

Lemma flags_of_rationals (pT pL pB pR cT cL cB cR : Q) :
  let p := Box.mk (JS.Num pT) (JS.Num pL) (JS.Num pB) (JS.Num pR) in
  let c := Box.mk (JS.Num cT) (JS.Num cL) (JS.Num cB) (JS.Num cR) in
  (InView.topVisible p c = true <-> pT <= cT /\ cT < pB)
  /\ (InView.bottomVisible p c = true <-> pT <= cB /\ cB < pB)
  /\ (InView.leftVisible p c = true <-> pL <= cL /\ cL < pR)
  /\ (InView.rightVisible p c = true <-> pL <= cR /\ cR <= pR)
  /\ (InView.overflowY p c = true <-> cT <= pT /\ pB <= cB)
  /\ (InView.overflowX p c = true <-> cL <= pL /\ pR <= cR).
Proof.
  cbv zeta.
  rewrite topVisible_iff, bottomVisible_iff, leftVisible_iff, rightVisible_iff,
    overflowY_iff, overflowX_iff.
  unfold Spec.within, Spec.withinClosed, Spec.covers.
  cbn [Box.top Box.left Box.bottom Box.right JS.Le JS.Lt]. tauto.
Qed.

Lemma true_of (b : bool) (P : Prop) : (b = true <-> P) -> P -> b = true.
Proof. tauto. Qed.

Lemma false_of (b : bool) (P : Prop) : (b = true <-> P) -> ~ P -> b = false.
Proof. destruct b; intuition congruence. Qed.

End Places.

(** X17: for a context with a client box of positive height and width and
    an ordered effective box of the subject: a subject that lies within the
    context (its bottom above the bottom border, its left edge before the
    right border, its right edge on or before it) gets all five flags; a
    subject that lies
    above the context, at or below its bottom border, left of it or beyond
    its right border gets none. *)
Theorem inside_and_outside (dom : Dom.t) (this : InView.t) :
  let p := InView.parentBox dom this in
  let c := InView.childBox dom this in
  (0 < Context.innerHeight dom (InView.context this))%N ->
  (0 < Context.innerWidth dom (InView.context this))%N ->
  Behaviour.ordered c ->
  (JS.Le (Box.top p) (Box.top c) /\ JS.Lt (Box.bottom c) (Box.bottom p)
   /\ JS.Le (Box.left p) (Box.left c) /\ JS.Lt (Box.left c) (Box.right p)
   /\ JS.Le (Box.right c) (Box.right p) ->
   InView.visibility p c = IVisibility.mk true true true true true)
  /\ (JS.Lt (Box.bottom c) (Box.top p) \/ JS.Le (Box.bottom p) (Box.top c)
      \/ JS.Lt (Box.right c) (Box.left p) \/ JS.Lt (Box.right p) (Box.left c) ->
      InView.visibility p c = IVisibility.mk false false false false false).
Proof.
  intros p c Hh Hw [OY OX]. subst p. rewrite parentBox_numbers.
  apply positive_N in Hh, Hw.
  destruct c as [[|cT] [|cL] [|cB] [|cR]];
    cbn [Box.top Box.left Box.bottom Box.right JS.Le] in OY, OX; try contradiction.
  match goal with
  | |- context [InView.visibility ?p ?c] =>
      destruct (flags_of_rationals
                  (Context.top dom (InView.context this))
                  (Context.left dom (InView.context this))
                  (Context.top dom (InView.context this)
                   + inject_Z (Z.of_N (Context.innerHeight dom (InView.context this))))
                  (Context.left dom (InView.context this)
                   + inject_Z (Z.of_N (Context.innerWidth dom (InView.context this))))
                  cT cL cB cR) as (TV & BV & LV & RV & OVY & OVX)
  end.
  cbv zeta in TV, BV, LV, RV, OVY, OVX.
  cbn [Box.top Box.left Box.bottom Box.right JS.Le JS.Lt]. unfold InView.visibility.
  split.
  - intros (A & B & C & D & E).
    rewrite (true_of _ _ TV), (true_of _ _ BV), (true_of _ _ LV), (true_of _ _ RV);
      [reflexivity | split; lra ..].
  - intros Out.
    assert (~ (Context.top dom (InView.context this) <= cT
               /\ cT < Context.top dom (InView.context this)
                       + inject_Z (Z.of_N (Context.innerHeight dom (InView.context this))))
            /\ ~ (Context.top dom (InView.context this) <= cB
                  /\ cB < Context.top dom (InView.context this)
                          + inject_Z (Z.of_N (Context.innerHeight dom (InView.context this))))
            /\ ~ (cT <= Context.top dom (InView.context this)
                  /\ Context.top dom (InView.context this)
                     + inject_Z (Z.of_N (Context.innerHeight dom (InView.context this)))
                     <= cB)
            \/ ~ (Context.left dom (InView.context this) <= cL
                  /\ cL < Context.left dom (InView.context this)
                          + inject_Z (Z.of_N (Context.innerWidth dom (InView.context this))))
               /\ ~ (Context.left dom (InView.context this) <= cR
                     /\ cR <= Context.left dom (InView.context this)
                              + inject_Z (Z.of_N (Context.innerWidth dom (InView.context this))))
               /\ ~ (cL <= Context.left dom (InView.context this)
                     /\ Context.left dom (InView.context this)
                        + inject_Z (Z.of_N (Context.innerWidth dom (InView.context this)))
                        <= cR)) as Cases.
    { destruct Out as [O|[O|[O|O]]];
        [left | left | right | right]; repeat split; intros [? ?]; lra. }
    destruct Cases as [(N1 & N2 & N3)|(N1 & N2 & N3)].
    + rewrite (false_of _ _ TV N1), (false_of _ _ BV N2), (false_of _ _ OVY N3).
      reflexivity.
    + rewrite (false_of _ _ LV N1), (false_of _ _ RV N2), (false_of _ _ OVX N3).
      now rewrite !andb_false_r.
Qed.

Lemma inside_and_outside_witness :
  InView.visibility (InView.parentBox (Sample.page 100 10 800 200) Sample.plain)
    (InView.childBox (Sample.page 100 10 800 200) Sample.plain)
  = IVisibility.mk true true true true true
  /\ InView.visibility (InView.parentBox (Sample.page 500 10 300 600) Sample.plain)
       (InView.childBox (Sample.page 500 10 300 600) Sample.plain)
     = IVisibility.mk false false false false false.
Proof.
  split.
  - apply (proj1 (inside_and_outside (Sample.page 100 10 800 200) Sample.plain
                    eq_refl eq_refl
                    ltac:(vm_compute; split; discriminate))).
    vm_compute. repeat split; discriminate.
  - apply (proj2 (inside_and_outside (Sample.page 500 10 300 600) Sample.plain
                    eq_refl eq_refl
                    ltac:(vm_compute; split; discriminate))).
    right. left. vm_compute. discriminate.
Defined.
